(** * The admin console: form-to-catalog reconciliation

    A shallow embedding of the catalog client ([api.ts]) and of the
    handlers of the [App] component ([App.tsx]), and the properties of
    the payload projection, the image precedence, the mode dispatch and
    the reload-after-mutation discipline.

    Conventions of the embedding.
    - A JavaScript string is a [string]; an optional field [f?: T] is an
      [option T] ([None] is [undefined]).
    - A JavaScript object used as an open record (the payload
      [productData: any], patched with assignments and [delete]) is a
      [gmap string Js.Value].
    - [async] functions are computations in a state-and-exception monad
      over the React state, the remote world and the transcript of the
      exchanges with the remote store. A handler runs to completion; the
      values it reads from its closure ([form], [imageFile],
      [editingProduct]) are those of the state it was started in.
      [handleDelete] is also given in two halves around its [await], to
      run events of the page while its request is in flight. *)

From Stdlib Require Import Ascii String.
From stdpp Require Import base strings gmap pretty list.

Local Open Scope string_scope.
Local Open Scope Z_scope.

(** ** JavaScript values and the primitives the console relies on *)

Module Js.

(** The values the console puts in a payload: strings, and the Numbers
    [parseInt] makes, which are integers that are doubles, an infinity
    or [NaN]. *)
Inductive Value : Type :=
| Str (s : string)
| Num (n : Z)
| Infinity (negative : bool)
| NaN.

#[global] Instance Value_eq_dec : EqDecision Value.
Proof. solve_decision. Defined.

(** [ToBoolean] on a property read; [None] is [undefined]. *)
Definition truthy (v : option Value) : bool :=
  match v with
  | Some (Str s) => negb (bool_decide (s = ""))
  | Some (Num n) => negb (n =? 0)
  | Some (Infinity _) => true
  | Some NaN | None => false
  end.

(** Every integer up to this magnitude, 2^53, is a double. *)
Definition MAX_EXACT : Z := 9007199254740992.

Definition exact (n : Z) : bool := Z.abs n <=? MAX_EXACT.

(** A natural number rounded to the 53 significant bits of a double,
    to nearest, ties to even. *)
Definition round53 (m : Z) : Z :=
  let k := Z.log2 m - 52 in
  if k <=? 0 then m
  else
    let q := Z.shiftr m k in
    let r := Z.land m (Z.ones k) in
    let half := Z.shiftl 1 (k - 1) in
    let q' := if (half <? r) || ((half =? r) && Z.odd q) then q + 1 else q in
    Z.shiftl q' k.

(** The Number value for a mathematical integer: the nearest double,
    an infinity when that would reach 2^1024. (For more than 20
    significant digits the standard lets [parseInt] ignore the digits
    after the 20th; this is the value of an engine that reads them
    all.) *)
Definition number_of (z : Z) : Value :=
  let r := round53 (Z.abs z) in
  if Z.log2 r <? 1024 then Num (Z.sgn z * r) else Infinity (z <? 0).

(** A Number the store holds, as far as the console tells Numbers
    apart: it prints them. An integer of magnitude at most 2^53 is
    printed in decimal digits; any other Number (a fraction, a larger
    magnitude, [NaN]) is given by what [String] prints for it, such as
    [2.5] or [1e+21]. *)
Inductive Number : Type :=
| Int (n : Z) (bounded : Is_true (exact n))
| Other (printed : string).

(** [String(x)] on a Number. *)
Definition toString (x : Number) : string :=
  match x with
  | Int n _ => pretty n
  | Other printed => printed
  end.

(** Truthiness of a string: every string but the empty one. *)
Definition nonempty (s : string) : bool := negb (bool_decide (s = "")).

(** Truthiness of an object reference that may be [null]. *)
Definition present {A} (o : option A) : bool :=
  match o with
  | Some _ => true
  | None => false
  end.

(** An optional string field when it is truthy: defined and not empty. *)
Definition text (a : option string) : option string :=
  match a with
  | Some s => if nonempty s then Some s else None
  | None => None
  end.

(** [a || b] on an optional string field with a string fallback. *)
Definition or_else (a : option string) (b : string) : string :=
  match a with
  | Some s => if nonempty s then s else b
  | None => b
  end.

(** White space of [String.prototype.trim] among the code units below
    256: TAB, LF, VT, FF, CR, SP and NBSP. *)
Definition is_white_space (a : ascii) : bool :=
  let n := N_of_ascii a in
  ((9 <=? n) && (n <=? 13) || (n =? 32) || (n =? 160))%N.

Fixpoint trimStart (s : string) : string :=
  match s with
  | String a s' => if is_white_space a then trimStart s' else s
  | EmptyString => ""
  end.

Definition trimEnd (s : string) : string :=
  String.rev (trimStart (String.rev s)).

Definition trim (s : string) : string := trimEnd (trimStart s).

Definition digit (a : ascii) : option Z :=
  let n := Z.of_N (N_of_ascii a) in
  if (48 <=? n) && (n <=? 57) then Some (n - 48) else None.

(** The value of the longest prefix of decimal digits, if not empty. *)
Fixpoint digits (s : string) (acc : option Z) : option Z :=
  match s with
  | String a s' =>
      match digit a with
      | Some d => digits s' (Some (10 * default 0 acc + d))
      | None => acc
      end
  | EmptyString => acc
  end.

(** [parseInt(s, 10)]: leading white space, an optional sign, then the
    longest run of decimal digits; [NaN] when that run is empty, else
    the Number value for the integer the digits denote. *)
Definition parseInt (s : string) : Value :=
  let s1 := trimStart s in
  let '(sign, s2) :=
    match s1 with
    | String "-" r => (-1, r)
    | String "+" r => (1, r)
    | _ => (1, s1)
    end in
  match digits s2 None with
  | Some n => number_of (sign * n)
  | None => NaN
  end.

End Js.

(** ** [api.ts]: the data of the catalog client *)

Module ApiProduct.
Record t : Type := mk {
  id : string;
  title : string;
  description : option string;
  price : option string;
  originalPrice : option string;
  offerPrice : option string;
  category : option string;
  subcategory : option string;
  imageUrl : option string;
  image : option string;
  badge : option string;
  availableQuantity : option Js.Number;
}.
End ApiProduct.

(** The reply of [GET /products]. *)
Module Catalog.
Record t : Type := mk {
  accessories : list ApiProduct.t;
  gifts : list ApiProduct.t;
}.
End Catalog.

(** A [File] picked in the file input. *)
Module File.
Record t : Type := mk { name : string }.
End File.

(** ** [App.tsx]: the draft *)

Module FormState.
Record t : Type := mk {
  title : string;
  description : string;
  price : string;
  originalPrice : string;
  offerPrice : string;
  category : string;
  subcategory : string;
  badge : string;
  imageUrl : string;
  availableQuantity : string;
}.

(** The [name] attributes of the form controls. *)
Inductive field : Type :=
| Title | Description | Price | OriginalPrice | OfferPrice
| Category | Subcategory | Badge | ImageUrl | AvailableQuantity.

(** [{ ...prev, [name]: value }]. *)
Definition set (name : field) (value : string) (prev : t) : t :=
  match name with
  | Title =>
      mk value (description prev) (price prev) (originalPrice prev) (offerPrice prev)
        (category prev) (subcategory prev) (badge prev) (imageUrl prev)
        (availableQuantity prev)
  | Description =>
      mk (title prev) value (price prev) (originalPrice prev) (offerPrice prev)
        (category prev) (subcategory prev) (badge prev) (imageUrl prev)
        (availableQuantity prev)
  | Price =>
      mk (title prev) (description prev) value (originalPrice prev) (offerPrice prev)
        (category prev) (subcategory prev) (badge prev) (imageUrl prev)
        (availableQuantity prev)
  | OriginalPrice =>
      mk (title prev) (description prev) (price prev) value (offerPrice prev)
        (category prev) (subcategory prev) (badge prev) (imageUrl prev)
        (availableQuantity prev)
  | OfferPrice =>
      mk (title prev) (description prev) (price prev) (originalPrice prev) value
        (category prev) (subcategory prev) (badge prev) (imageUrl prev)
        (availableQuantity prev)
  | Category =>
      mk (title prev) (description prev) (price prev) (originalPrice prev)
        (offerPrice prev) value (subcategory prev) (badge prev) (imageUrl prev)
        (availableQuantity prev)
  | Subcategory =>
      mk (title prev) (description prev) (price prev) (originalPrice prev)
        (offerPrice prev) (category prev) value (badge prev) (imageUrl prev)
        (availableQuantity prev)
  | Badge =>
      mk (title prev) (description prev) (price prev) (originalPrice prev)
        (offerPrice prev) (category prev) (subcategory prev) value (imageUrl prev)
        (availableQuantity prev)
  | ImageUrl =>
      mk (title prev) (description prev) (price prev) (originalPrice prev)
        (offerPrice prev) (category prev) (subcategory prev) (badge prev) value
        (availableQuantity prev)
  | AvailableQuantity =>
      mk (title prev) (description prev) (price prev) (originalPrice prev)
        (offerPrice prev) (category prev) (subcategory prev) (badge prev)
        (imageUrl prev) value
  end.
End FormState.

Definition initialForm : FormState.t :=
  {| FormState.title := "";
     FormState.description := "";
     FormState.price := "";
     FormState.originalPrice := "";
     FormState.offerPrice := "";
     FormState.category := "accessories";
     FormState.subcategory := "";
     FormState.badge := "";
     FormState.imageUrl := "";
     FormState.availableQuantity := "" |}.

(** ** The payload projection of [handleSubmit] *)

(** [{ ...form }]: the ten own properties of the draft. *)
Definition spread (form : FormState.t) : gmap string Js.Value :=
  <["title" := Js.Str (FormState.title form)]>
  (<["description" := Js.Str (FormState.description form)]>
  (<["price" := Js.Str (FormState.price form)]>
  (<["originalPrice" := Js.Str (FormState.originalPrice form)]>
  (<["offerPrice" := Js.Str (FormState.offerPrice form)]>
  (<["category" := Js.Str (FormState.category form)]>
  (<["subcategory" := Js.Str (FormState.subcategory form)]>
  (<["badge" := Js.Str (FormState.badge form)]>
  (<["imageUrl" := Js.Str (FormState.imageUrl form)]>
  (<["availableQuantity" := Js.Str (FormState.availableQuantity form)]> ∅))))))))).

(** [if (!o[k]) delete o[k]]. *)
Definition delete_if_falsy (k : string) (o : gmap string Js.Value) : gmap string Js.Value :=
  if Js.truthy (o !! k) then o else delete k o.

(** Only include availableQuantity for accessories. *)
Definition quantity_for_accessories (form : FormState.t) (o : gmap string Js.Value)
  : gmap string Js.Value :=
  if bool_decide (FormState.category form = "accessories")
     && Js.nonempty (FormState.availableQuantity form)
  then <["availableQuantity" := Js.parseInt (FormState.availableQuantity form)]> o
  else delete "availableQuantity" o.

(** Keep the legacy price field, back-filled from originalPrice. *)
Definition backfill_price (o : gmap string Js.Value) : gmap string Js.Value :=
  if negb (Js.truthy (o !! "price")) && Js.truthy (o !! "originalPrice")
  then match o !! "originalPrice" with
       | Some v => <["price" := v]> o
       | None => o
       end
  else o.

(** Lines 151-171 of [handleSubmit]: the object handed to the catalog
    client for the draft [form] and the resolved image reference. *)
Definition productData (form : FormState.t) (imageUrl : string) : gmap string Js.Value :=
  let o := <["imageUrl" := Js.Str imageUrl]> (spread form) in
  let o := quantity_for_accessories form o in
  (* Clean up empty strings *)
  let o := delete_if_falsy "originalPrice" o in
  let o := delete_if_falsy "offerPrice" o in
  let o := delete_if_falsy "subcategory" o in
  let o := delete_if_falsy "badge" o in
  backfill_price o.

(** ** [api.ts]: requests, replies and the remote world *)

Inductive Outcome (A : Type) : Type :=
| Resolved (a : A)
| Rejected (message : string).
Arguments Resolved {A} a.
Arguments Rejected {A} message.

Definition omap_outcome {A B} (f : A -> B) (o : Outcome A) : Outcome B :=
  match o with
  | Resolved a => Resolved (f a)
  | Rejected e => Rejected e
  end.

Inductive Method : Type := GET | POST | PUT | DELETE.

Inductive Body : Type :=
| NoBody
| Json (o : gmap string Js.Value)
| FormData (image : File.t).

Module Request.
Record t : Type := mk {
  method : Method;
  url : string;
  body : Body;
}.
End Request.

(** What the client looks at in a [Response]: [res.ok], [res.status] and
    the promise of [res.json()], typed as the client casts it. *)
Module Response.
Record t (T : Type) : Type := mk {
  ok : bool;
  status : N;
  json : Outcome T;
}.
Arguments mk {T}.
Arguments ok {T}.
Arguments status {T}.
Arguments json {T}.
End Response.

(** The body of [POST /upload]: [{ url }] on success, [{ error }] on
    failure; a missing property reads as the empty string. *)
Module UploadBody.
Record t : Type := mk { url : string; error : string }.
End UploadBody.

(** The remote store and the image host, as [fetch] sees them: each
    endpoint answers a request in a world and moves to the next world;
    [Rejected] is a [fetch] that rejects. *)
Module Server.
Record t (World : Type) : Type := mk {
  list_products : Request.t -> World -> World * Outcome (Response.t Catalog.t);
  create_product : Request.t -> World -> World * Outcome (Response.t ApiProduct.t);
  update_product : Request.t -> World -> World * Outcome (Response.t ApiProduct.t);
  delete_product : Request.t -> World -> World * Outcome (Response.t ApiProduct.t);
  upload : Request.t -> World -> World * Outcome (Response.t UploadBody.t);
}.
Arguments list_products {World}.
Arguments create_product {World}.
Arguments update_product {World}.
Arguments delete_product {World}.
Arguments upload {World}.
End Server.

(** The functions exported by [api.ts]. *)
Inductive ApiCall : Type :=
| FetchAllProducts | CreateProduct | UpdateProduct | DeleteProduct | UploadImage.

#[global] Instance ApiCall_eq_dec : EqDecision ApiCall.
Proof. solve_decision. Defined.

Inductive Data : Type :=
| DCatalog (c : Catalog.t)
| DProduct (p : ApiProduct.t)
| DUrl (u : string).

(** One call of the catalog client: the request it sent and how the
    call settled. *)
Module Exchange.
Record t : Type := mk {
  api : ApiCall;
  request : Request.t;
  outcome : Outcome Data;
}.
End Exchange.

(** ** [App.tsx]: the state of the component *)

Module State.
Record t : Type := mk {
  authed : bool;
  password : string;
  form : FormState.t;
  imageFile : option File.t;
  uploadingImage : bool;
  fileInput : string;            (* fileInputRef.current.value *)
  products : Catalog.t;
  loading : bool;
  error : option string;
  editingProduct : option ApiProduct.t;
  localStorage : gmap string string;
}.
End State.

Module Machine.
Record t (World : Type) : Type := mk {
  app : State.t;
  world : World;
  transcript : list Exchange.t;
}.
Arguments mk {World}.
Arguments app {World}.
Arguments world {World}.
Arguments transcript {World}.
End Machine.

(** The state setters of the component ([useState]); [setFileInputValue]
    assigns [fileInputRef.current.value] and [setLocalStorage] the storage
    of the browser profile. *)

Definition setAuthed (v : bool) (s : State.t) : State.t :=
  {| State.authed := v;
     State.password := State.password s;
     State.form := State.form s;
     State.imageFile := State.imageFile s;
     State.uploadingImage := State.uploadingImage s;
     State.fileInput := State.fileInput s;
     State.products := State.products s;
     State.loading := State.loading s;
     State.error := State.error s;
     State.editingProduct := State.editingProduct s;
     State.localStorage := State.localStorage s |}.

Definition setPassword (v : string) (s : State.t) : State.t :=
  {| State.authed := State.authed s;
     State.password := v;
     State.form := State.form s;
     State.imageFile := State.imageFile s;
     State.uploadingImage := State.uploadingImage s;
     State.fileInput := State.fileInput s;
     State.products := State.products s;
     State.loading := State.loading s;
     State.error := State.error s;
     State.editingProduct := State.editingProduct s;
     State.localStorage := State.localStorage s |}.

Definition setForm (v : FormState.t) (s : State.t) : State.t :=
  {| State.authed := State.authed s;
     State.password := State.password s;
     State.form := v;
     State.imageFile := State.imageFile s;
     State.uploadingImage := State.uploadingImage s;
     State.fileInput := State.fileInput s;
     State.products := State.products s;
     State.loading := State.loading s;
     State.error := State.error s;
     State.editingProduct := State.editingProduct s;
     State.localStorage := State.localStorage s |}.

Definition setImageFile (v : option File.t) (s : State.t) : State.t :=
  {| State.authed := State.authed s;
     State.password := State.password s;
     State.form := State.form s;
     State.imageFile := v;
     State.uploadingImage := State.uploadingImage s;
     State.fileInput := State.fileInput s;
     State.products := State.products s;
     State.loading := State.loading s;
     State.error := State.error s;
     State.editingProduct := State.editingProduct s;
     State.localStorage := State.localStorage s |}.

Definition setUploadingImage (v : bool) (s : State.t) : State.t :=
  {| State.authed := State.authed s;
     State.password := State.password s;
     State.form := State.form s;
     State.imageFile := State.imageFile s;
     State.uploadingImage := v;
     State.fileInput := State.fileInput s;
     State.products := State.products s;
     State.loading := State.loading s;
     State.error := State.error s;
     State.editingProduct := State.editingProduct s;
     State.localStorage := State.localStorage s |}.

Definition setFileInputValue (v : string) (s : State.t) : State.t :=
  {| State.authed := State.authed s;
     State.password := State.password s;
     State.form := State.form s;
     State.imageFile := State.imageFile s;
     State.uploadingImage := State.uploadingImage s;
     State.fileInput := v;
     State.products := State.products s;
     State.loading := State.loading s;
     State.error := State.error s;
     State.editingProduct := State.editingProduct s;
     State.localStorage := State.localStorage s |}.

Definition setProducts (v : Catalog.t) (s : State.t) : State.t :=
  {| State.authed := State.authed s;
     State.password := State.password s;
     State.form := State.form s;
     State.imageFile := State.imageFile s;
     State.uploadingImage := State.uploadingImage s;
     State.fileInput := State.fileInput s;
     State.products := v;
     State.loading := State.loading s;
     State.error := State.error s;
     State.editingProduct := State.editingProduct s;
     State.localStorage := State.localStorage s |}.

Definition setLoading (v : bool) (s : State.t) : State.t :=
  {| State.authed := State.authed s;
     State.password := State.password s;
     State.form := State.form s;
     State.imageFile := State.imageFile s;
     State.uploadingImage := State.uploadingImage s;
     State.fileInput := State.fileInput s;
     State.products := State.products s;
     State.loading := v;
     State.error := State.error s;
     State.editingProduct := State.editingProduct s;
     State.localStorage := State.localStorage s |}.

Definition setError (v : option string) (s : State.t) : State.t :=
  {| State.authed := State.authed s;
     State.password := State.password s;
     State.form := State.form s;
     State.imageFile := State.imageFile s;
     State.uploadingImage := State.uploadingImage s;
     State.fileInput := State.fileInput s;
     State.products := State.products s;
     State.loading := State.loading s;
     State.error := v;
     State.editingProduct := State.editingProduct s;
     State.localStorage := State.localStorage s |}.

Definition setEditingProduct (v : option ApiProduct.t) (s : State.t) : State.t :=
  {| State.authed := State.authed s;
     State.password := State.password s;
     State.form := State.form s;
     State.imageFile := State.imageFile s;
     State.uploadingImage := State.uploadingImage s;
     State.fileInput := State.fileInput s;
     State.products := State.products s;
     State.loading := State.loading s;
     State.error := State.error s;
     State.editingProduct := v;
     State.localStorage := State.localStorage s |}.

Definition setLocalStorage (v : gmap string string) (s : State.t) : State.t :=
  {| State.authed := State.authed s;
     State.password := State.password s;
     State.form := State.form s;
     State.imageFile := State.imageFile s;
     State.uploadingImage := State.uploadingImage s;
     State.fileInput := State.fileInput s;
     State.products := State.products s;
     State.loading := State.loading s;
     State.error := State.error s;
     State.editingProduct := State.editingProduct s;
     State.localStorage := v |}.

(** The state of the first render: [authed] is read from the persisted
    marker, everything else starts empty. *)
Definition initialState (storage : gmap string string) : State.t :=
  {| State.authed := bool_decide (storage !! "admin_authed" = Some "true");
     State.password := "";
     State.form := initialForm;
     State.imageFile := None;
     State.uploadingImage := false;
     State.fileInput := "";
     State.products := Catalog.mk [] [];
     State.loading := false;
     State.error := None;
     State.editingProduct := None;
     State.localStorage := storage |}.

(** What the user can do to the rendered component. *)
Inductive Event : Type :=
| PasswordChange (value : string)
| Login
| Change (name : FormState.field) (value : string)
| CategoryChange (value : string)
| FileChange (file : option File.t)
| ImageUrlChange (value : string)
| Submit
| Edit (product : ApiProduct.t)
| CancelEdit
| Delete (id : string) (category : option string).

(** ** [App.tsx]: what is rendered *)

Definition ACCESSORIES_SUBCATEGORIES : list string :=
  [ "Chain bracelet"; "Necklaces"; "Finger rings"; "Kada Bracelet";
    "Thin wrist kada"; "Hoops/Earrings"; "Insta viral pinteresty products";
    "Mens Jewellery"; "Korean earrings"; "Combos"; "Anklets";
    "Hair accessories"; "Gifting"; "Add ons" ].

Definition GIFTS_SUBCATEGORIES : list string :=
  [ "Bouquet"; "Premium hampers"; "Budget Friendly hampers";
    "Accessories hampers"; "Gifting options"; "Gifts for her"; "Gifts for him";
    "Wedding favour"; "Baby shower favour"; "Return gifts" ].

(** The interactive elements of the page, with the event each one
    raises: a text input or text area (controlled: [value] is what it
    shows), a select with the values of its options, the file input, and
    a button. *)
Inductive Control : Type :=
| TextInput (name value : string) (onChange : string -> Event)
| Select (name value : string) (options : list string) (onChange : string -> Event)
| FileInput (onChange : option File.t -> Event)
| Button (label : string) (disabled : bool) (onClick : Event).

(** One item of [ProductList]. *)
Module Item.

Inductive Thumb : Type :=
| Image (src alt : string)
| NoImage.

(** The price line, each amount shown after the rupee sign: the offer
    price with the original price struck through beside it, or the
    original price alone, or the legacy price (or N/A). *)
Inductive Price : Type :=
| Offer (offerPrice : string) (struck : option string)
| Original (originalPrice : string)
| Legacy (text : string).

Definition thumb (p : ApiProduct.t) : Thumb :=
  let src := Js.or_else (ApiProduct.imageUrl p) (Js.or_else (ApiProduct.image p) "") in
  if Js.nonempty src then Image src (ApiProduct.title p) else NoImage.

Definition price (p : ApiProduct.t) : Price :=
  if Js.nonempty (Js.or_else (ApiProduct.offerPrice p) "") then
    Offer (Js.or_else (ApiProduct.offerPrice p) "")
      (if Js.nonempty (Js.or_else (ApiProduct.originalPrice p) "")
       then Some (Js.or_else (ApiProduct.originalPrice p) "")
       else None)
  else if Js.nonempty (Js.or_else (ApiProduct.originalPrice p) "") then
    Original (Js.or_else (ApiProduct.originalPrice p) "")
  else
    Legacy (Js.or_else (ApiProduct.price p) "N/A").

(** The Edit and Delete buttons of the item. *)
Definition controls (editingProductId : option string) (p : ApiProduct.t)
  : list Control :=
  let editing := bool_decide (editingProductId = Some (ApiProduct.id p)) in
  [ Button (if editing then "Editing..." else "Edit") editing (Edit p);
    Button "Delete" false (Delete (ApiProduct.id p) (ApiProduct.category p)) ].

End Item.

(** The header count of a [ProductList] and whether it shows the
    No products line. *)
Definition itemsLabel (items : list ApiProduct.t) : string :=
  pretty (length items) ++ " items".

Definition showsNoProducts (items : list ApiProduct.t) : bool :=
  bool_decide (length items = 0%nat).

(** The label of the submit button. *)
Definition submitLabel (s : State.t) : string :=
  if State.uploadingImage s then "Uploading image..."
  else if State.loading s then "Saving..."
  else if Js.present (State.editingProduct s) then "Update Product"
  else "Add Product".

(** The options of the subcategory select, after its placeholder. *)
Definition subcategoryOptions (form : FormState.t) : list string :=
  if bool_decide (FormState.category form = "accessories")
  then ACCESSORIES_SUBCATEGORIES
  else GIFTS_SUBCATEGORIES.

(** The controls of the page in the state [s]: the login form until the
    operator is authenticated, then the product form and the two lists. *)
Definition controls (s : State.t) : list Control :=
  let form := State.form s in
  let editingProductId := ApiProduct.id <$> State.editingProduct s in
  if State.authed s then
    (if Js.present (State.editingProduct s)
     then [Button "Cancel" false CancelEdit] else [])
    ++ [ TextInput "title" (FormState.title form) (Change FormState.Title);
         TextInput "originalPrice" (FormState.originalPrice form)
           (Change FormState.OriginalPrice);
         TextInput "offerPrice" (FormState.offerPrice form)
           (Change FormState.OfferPrice);
         TextInput "description" (FormState.description form)
           (Change FormState.Description);
         Select "category" (FormState.category form) ["accessories"; "gifts"]
           CategoryChange;
         Select "subcategory" (FormState.subcategory form)
           ("" :: subcategoryOptions form) (Change FormState.Subcategory);
         TextInput "badge" (FormState.badge form) (Change FormState.Badge) ]
    ++ (if bool_decide (FormState.category form = "accessories")
        then [TextInput "availableQuantity" (FormState.availableQuantity form)
                (Change FormState.AvailableQuantity)]
        else [])
    ++ [ FileInput FileChange;
         TextInput "imageUrl" (FormState.imageUrl form) ImageUrlChange;
         Button (submitLabel s) (State.loading s || State.uploadingImage s) Submit ]
    ++ (Catalog.accessories (State.products s) ≫= Item.controls editingProductId)
    ++ (Catalog.gifts (State.products s) ≫= Item.controls editingProductId)
  else
    [ TextInput "password" (State.password s) PasswordChange;
      Button "Login" false Login ].

(** The products of both lists. *)
Definition catalog_rows (c : Catalog.t) : list ApiProduct.t :=
  Catalog.accessories c ++ Catalog.gifts c.

(** The control [c] can raise the event [e]. *)
Definition fires (c : Control) (e : Event) : Prop :=
  match c with
  | TextInput _ _ onChange => exists value, e = onChange value
  | Select _ _ options onChange => exists value, value ∈ options /\ e = onChange value
  | FileInput onChange => exists file, e = onChange file
  | Button _ disabled onClick => disabled = false /\ e = onClick
  end.

(** The page offers the event [e] in the state [s]. *)
Definition offered (s : State.t) (e : Event) : Prop :=
  exists c, c ∈ controls s /\ fires c e.

(** ** Observations on a run *)

(** The calls that change the remote catalog. *)
Definition is_mutation (x : Exchange.t) : bool :=
  match Exchange.api x with
  | CreateProduct | UpdateProduct | DeleteProduct => true
  | FetchAllProducts | UploadImage => false
  end.

(** The full reload of the catalog. *)
Definition is_reload (x : Exchange.t) : bool :=
  bool_decide (Exchange.api x = FetchAllProducts).

Definition settled (x : Exchange.t) : bool :=
  match Exchange.outcome x with
  | Resolved _ => true
  | Rejected _ => false
  end.

(** The object sent by a create or an update. *)
Definition payload_of (x : Exchange.t) : option (gmap string Js.Value) :=
  match Exchange.api x, Request.body (Exchange.request x) with
  | CreateProduct, Json o | UpdateProduct, Json o => Some o
  | _, _ => None
  end.

Definition sent_payloads (t : list Exchange.t) : list (gmap string Js.Value) :=
  omap payload_of t.

Definition mutations (t : list Exchange.t) : list Exchange.t :=
  List.filter is_mutation t.

(** Reload-after-mutation: a mutation that settled is followed by one
    reload and nothing else, a mutation that was rejected by nothing. *)
Fixpoint reload_discipline (t : list Exchange.t) : bool :=
  match t with
  | [] => true
  | x :: t' =>
      if is_mutation x then
        if settled x
        then match t' with
             | [g] => is_reload g
             | _ => false
             end
        else match t' with
             | [] => true
             | _ => false
             end
      else reload_discipline t'
  end.

(** Every code unit of the string is white space. *)
Fixpoint all_white_space (s : string) : bool :=
  match s with
  | String a s' => Js.is_white_space a && all_white_space s'
  | EmptyString => true
  end.

(** The string is empty or starts with something else than a decimal
    digit. *)
Definition no_leading_digit (s : string) : bool :=
  match s with
  | String a _ => negb (Js.present (Js.digit a))
  | EmptyString => true
  end.

(** The catalog of the last reload that settled, if any. *)
Definition note_reload (known : option Catalog.t) (x : Exchange.t) : option Catalog.t :=
  match Exchange.api x, Exchange.outcome x with
  | FetchAllProducts, Resolved (DCatalog c) => Some c
  | _, _ => known
  end.

Definition last_catalog (t : list Exchange.t) : option Catalog.t :=
  fold_left note_reload t None.

(** The calls of a transcript, by name. *)
Definition calls (t : list Exchange.t) : list ApiCall := map Exchange.api t.

(** The messages of the presence checks of [handleSubmit]. *)
Definition title_required : string := "Title required".
Definition category_required : string := "Category required".
Definition image_required : string :=
  "Please provide an image (upload file or enter URL)".

(** The image reference a product already has: [imageUrl], else the
    legacy [image]. *)
Definition existing_image (product : ApiProduct.t) : string :=
  Js.or_else (ApiProduct.imageUrl product) (Js.or_else (ApiProduct.image product) "").

(** ** The console against a remote world *)

Section Console.

Context {World : Type}.
Variable API_BASE : string.
Variable ADMIN_PASSWORD : string.
Variable server : Server.t World.

(** *** The monad of handlers *)

Definition M (A : Type) : Type :=
  Machine.t World -> Outcome A * Machine.t World.

Definition ret {A} (a : A) : M A := fun m => (Resolved a, m).

Definition throw {A} (message : string) : M A := fun m => (Rejected message, m).

Definition bind {A B} (c : M A) (k : A -> M B) : M B :=
  fun m =>
    match c m with
    | (Resolved a, m') => k a m'
    | (Rejected e, m') => (Rejected e, m')
    end.

(** [try { c } catch (err) { handler err.message }]. *)
Definition try_catch {A} (c : M A) (handler : string -> M A) : M A :=
  fun m =>
    match c m with
    | (Resolved a, m') => (Resolved a, m')
    | (Rejected e, m') => handler e m'
    end.

(** [try { c } finally { cleanup }]. *)
Definition try_finally {A} (c : M A) (cleanup : M unit) : M A :=
  fun m =>
    let '(r, m') := c m in
    match cleanup m' with
    | (Resolved _, m'') => (r, m'')
    | (Rejected e, m'') => (Rejected e, m'')
    end.

Definition when (b : bool) (c : M unit) : M unit := if b then c else ret tt.

(** The state the running handler closed over. *)
Definition closure : M State.t := fun m => (Resolved (Machine.app m), m).

Definition update (f : State.t -> State.t) : M unit :=
  fun m =>
    (Resolved tt,
     Machine.mk (f (Machine.app m)) (Machine.world m) (Machine.transcript m)).

#[local] Instance M_ret : MRet M := @ret.
#[local] Instance M_bind : MBind M := fun A B k c => bind c k.

(** *** [api.ts] *)

(** One [fetch] and what the client makes of the response; the call is
    recorded with the way it settled. *)
Definition call {T R} (name : ApiCall) (request : Request.t)
    (endpoint : Request.t -> World -> World * Outcome (Response.t T))
    (settle : Response.t T -> Outcome R) (data : R -> Data) : M R :=
  fun m =>
    let '(w, fetched) := endpoint request (Machine.world m) in
    let r := match fetched with
             | Resolved res => settle res
             | Rejected e => Rejected e
             end in
    (r, Machine.mk (Machine.app m) w
          (Machine.transcript m ++ [Exchange.mk name request (omap_outcome data r)])).

(** [if (!res.ok) throw new Error(`HTTP ${res.status}`); return await res.json()]. *)
Definition json_if_ok {T} (res : Response.t T) : Outcome T :=
  if Response.ok res then Response.json res
  else Rejected ("HTTP " ++ pretty (Response.status res)).

Definition fetchAllProducts : M Catalog.t :=
  call FetchAllProducts
    (Request.mk GET (API_BASE ++ "/products") NoBody)
    (Server.list_products server) json_if_ok DCatalog.

Definition createProduct (product : gmap string Js.Value) : M ApiProduct.t :=
  call CreateProduct
    (Request.mk POST (API_BASE ++ "/products") (Json product))
    (Server.create_product server) json_if_ok DProduct.

Definition updateProduct (id category : string) (product : gmap string Js.Value)
  : M ApiProduct.t :=
  call UpdateProduct
    (Request.mk PUT (API_BASE ++ "/products/" ++ id ++ "?category=" ++ category)
       (Json product))
    (Server.update_product server) json_if_ok DProduct.

Definition deleteProduct (id : string) (category : option string) : M ApiProduct.t :=
  call DeleteProduct
    (Request.mk DELETE
       (API_BASE ++ "/products/" ++ id ++
          match category with
          | Some c => if Js.nonempty c then "?category=" ++ c else ""
          | None => ""
          end)
       NoBody)
    (Server.delete_product server) json_if_ok DProduct.

Definition uploadImage (file : File.t) : M string :=
  call UploadImage
    (Request.mk POST (API_BASE ++ "/upload") (FormData file))
    (Server.upload server)
    (fun res =>
       if negb (Response.ok res) then
         match Response.json res with
         | Resolved error =>
             Rejected (if Js.nonempty (UploadBody.error error)
                       then UploadBody.error error
                       else "HTTP " ++ pretty (Response.status res))
         | Rejected e => Rejected e
         end
       else
         match Response.json res with
         | Resolved data => Resolved (UploadBody.url data)
         | Rejected e => Rejected e
         end)
    DUrl.

(** *** [App.tsx] *)

(** [if (fileInputRef.current) fileInputRef.current.value = '']: the
    file input is mounted exactly when the form is rendered. *)
Definition resetFileInput : M unit :=
  update (fun s => if State.authed s then setFileInputValue "" s else s).

Definition load : M unit :=
  update (setError None) ;;
  try_catch
    (data ← fetchAllProducts;
     update (setProducts data))
    (fun _ => update (setError (Some "Failed to load products."))).

Definition handleLogin : M unit :=
  s ← closure;
  if bool_decide (State.password s = ADMIN_PASSWORD) then
    update (fun s => setLocalStorage (<["admin_authed" := "true"]> (State.localStorage s)) s) ;;
    update (setAuthed true)
  else
    update (setError (Some "Invalid password")).

Definition handleChange (name : FormState.field) (value : string) : M unit :=
  update (fun s => setForm (FormState.set name value (State.form s)) s).

Definition handleSubmit : M unit :=
  s ← closure;
  let form := State.form s in
  let imageFile := State.imageFile s in
  let editingProduct := State.editingProduct s in
  update (setLoading true) ;;
  update (setError None) ;;
  try_finally
    (try_catch
       (when (negb (Js.nonempty (Js.trim (FormState.title form))))
          (throw "Title required") ;;
        when (negb (Js.nonempty (FormState.category form)))
          (throw "Category required") ;;
        imageUrl ←
          match imageFile with
          | Some file =>
              (* Upload image to Cloudinary if file is selected *)
              update (setUploadingImage true) ;;
              try_finally
                (try_catch (uploadImage file)
                   (fun message => throw ("Image upload failed: " ++ message)))
                (update (setUploadingImage false))
          | None => ret (FormState.imageUrl form)
          end;
        when (negb (Js.nonempty imageUrl) && negb (Js.present editingProduct))
          (throw "Please provide an image (upload file or enter URL)") ;;
        (* If editing and no new image provided, use existing image *)
        let imageUrl :=
          match editingProduct with
          | Some product =>
              if negb (Js.nonempty imageUrl) && negb (Js.present imageFile)
              then Js.or_else (ApiProduct.imageUrl product)
                     (Js.or_else (ApiProduct.image product) "")
              else imageUrl
          | None => imageUrl
          end in
        let productData := productData form imageUrl in
        match editingProduct with
        | Some product =>
            updateProduct (ApiProduct.id product) (FormState.category form) productData ;;
            ret tt
        | None =>
            createProduct productData ;;
            ret tt
        end ;;
        update (setForm initialForm) ;;
        update (setEditingProduct None) ;;
        update (setImageFile None) ;;
        resetFileInput ;;
        load)
       (fun message =>
          update (setError
                    (Some (if Js.nonempty message then message
                           else "Failed to add product.")))))
    (update (setLoading false)).

Definition handleEdit (product : ApiProduct.t) : M unit :=
  update (setEditingProduct (Some product)) ;;
  update (setForm
    {| FormState.title := Js.or_else (Some (ApiProduct.title product)) "";
       FormState.description := Js.or_else (ApiProduct.description product) "";
       FormState.price := Js.or_else (ApiProduct.price product) "";
       FormState.originalPrice := Js.or_else (ApiProduct.originalPrice product) "";
       FormState.offerPrice := Js.or_else (ApiProduct.offerPrice product) "";
       FormState.category := Js.or_else (ApiProduct.category product) "accessories";
       FormState.subcategory := Js.or_else (ApiProduct.subcategory product) "";
       FormState.badge := Js.or_else (ApiProduct.badge product) "";
       FormState.imageUrl :=
         Js.or_else (ApiProduct.imageUrl product)
           (Js.or_else (ApiProduct.image product) "");
       FormState.availableQuantity :=
         match ApiProduct.availableQuantity product with
         | Some n => Js.toString n
         | None => ""
         end |}) ;;
  update (setImageFile None) ;;
  resetFileInput.

Definition handleCancelEdit : M unit :=
  update (setEditingProduct None) ;;
  update (setForm initialForm) ;;
  update (setImageFile None) ;;
  resetFileInput.

Definition handleDelete (id : string) (category : option string) : M unit :=
  s ← closure;
  let editingProduct := State.editingProduct s in
  update (setLoading true) ;;
  update (setError None) ;;
  try_finally
    (try_catch
       (deleteProduct id category ;;
        when (bool_decide (ApiProduct.id <$> editingProduct = Some id))
          handleCancelEdit ;;
        load)
       (fun _ => update (setError (Some "Failed to delete product."))))
    (update (setLoading false)).

(** [handleDelete] around [await deleteProduct(id, category)]. A click
    on Delete runs the handler up to the [await]: the console is marked
    busy and the request leaves. The page stays live meanwhile (only the
    submit button is disabled by [loading]). When the store has
    answered, the handler resumes with the [editingProduct] of the
    render in which Delete was clicked. *)
Definition handleDelete_clicked : M State.t :=
  s ← closure;
  update (setLoading true) ;;
  update (setError None) ;;
  ret s.

Definition handleDelete_resumed (rendered : State.t) (id : string)
    (category : option string) : M unit :=
  let editingProduct := State.editingProduct rendered in
  try_finally
    (try_catch
       (deleteProduct id category ;;
        when (bool_decide (ApiProduct.id <$> editingProduct = Some id))
          handleCancelEdit ;;
        load)
       (fun _ => update (setError (Some "Failed to delete product."))))
    (update (setLoading false)).

(** The [onChange] of the category select. *)
Definition onCategoryChange (value : string) : M unit :=
  handleChange FormState.Category value ;;
  update (fun s => setForm (FormState.set FormState.Subcategory "" (State.form s)) s).

(** The [onChange] of the file input; [file] is [e.target.files?.[0]]. *)
Definition onFileChange (file : option File.t) : M unit :=
  match file with
  | Some f =>
      update (setImageFile (Some f)) ;;
      update (fun s => setForm (FormState.set FormState.ImageUrl "" (State.form s)) s)
  | None => ret tt
  end.

(** The [onChange] of the manual image URL input. *)
Definition onImageUrlChange (value : string) : M unit :=
  handleChange FormState.ImageUrl value ;;
  when (Js.nonempty value) (update (setImageFile None)).

Definition handler (e : Event) : M unit :=
  match e with
  | PasswordChange value => update (setPassword value)
  | Login => handleLogin
  | Change name value => handleChange name value
  | CategoryChange value => onCategoryChange value
  | FileChange file => onFileChange file
  | ImageUrlChange value => onImageUrlChange value
  | Submit => handleSubmit
  | Edit product => handleEdit product
  | CancelEdit => handleCancelEdit
  | Delete id category => handleDelete id category
  end.

(** A delete with the events [during] handled while its request is in
    flight. The events are ones that send nothing themselves (typing,
    Edit, Cancel): the store then sees the DELETE alone, and answers it
    the same whether it is asked before or after them. *)
Definition handleDelete_during (during : list Event) (id : string)
    (category : option string) : M unit :=
  rendered ← handleDelete_clicked;
  foldr (fun e rest => handler e ;; rest) (ret tt) during ;;
  handleDelete_resumed rendered id category.

(** [useEffect(() => { if (authed) load(); }, [authed])] on the first
    render. *)
Definition mount : M unit :=
  s ← closure;
  when (State.authed s) load.

(** An event, then the effect when [authed] changed. *)
Definition dispatch (e : Event) : M unit :=
  before ← closure;
  handler e ;;
  after ← closure;
  when (negb (bool_decide (State.authed before = State.authed after)) && State.authed after)
    load.

(** A handler started in state [s] against the world [w], with an
    empty transcript. *)
Definition run {A} (c : M A) (s : State.t) (w : World) : Outcome A * Machine.t World :=
  c (Machine.mk s w []).

(** *** Observations on a run *)

(** The machine a handler leaves behind. *)
Definition after {A} (c : M A) (s : State.t) (w : World) : Machine.t World :=
  (run c s w).2.

(** The draft has an image that resolves: the selected file uploads to
    a URL, or a URL was typed, or a product is being edited. An upload
    that answers with an empty URL only counts while editing. *)
Definition resolvable (s : State.t) (w : World) : Prop :=
  match State.imageFile s with
  | Some file =>
      exists u, (run (uploadImage file) s w).1 = Resolved u
                /\ (u <> "" \/ is_Some (State.editingProduct s))
  | None =>
      FormState.imageUrl (State.form s) <> "" \/ is_Some (State.editingProduct s)
  end.

(** The snapshot a handler leaves is the one it found, or the catalog
    that its last call, a reload that settled, answered with. *)
Definition kept_or_reloaded (s : State.t) (m : Machine.t World) : Prop :=
  State.products (Machine.app m) = State.products s
  \/ exists x c,
       last (Machine.transcript m) = Some x
       /\ Exchange.api x = FetchAllProducts
       /\ Exchange.outcome x = Resolved (DCatalog c)
       /\ State.products (Machine.app m) = c.

(** *** Sessions *)

(** The machines of a session: the first render from some storage
    against some world, then any events the page offers, each handled
    to completion. *)
Inductive reachable : Machine.t World -> Prop :=
| reachable_mount (storage : gmap string string) (w : World) :
    reachable (after mount (initialState storage) w)
| reachable_event (m : Machine.t World) (e : Event) :
    reachable m ->
    offered (Machine.app m) e ->
    reachable (dispatch e m).2.

End Console.

(** ** Sample worlds

    Three small remote stores used to exercise the handlers on concrete
    inputs: one that answers every request with success, one whose image
    host refuses uploads, and one whose catalog refuses mutations. *)

Module Sample.

Definition ring : ApiProduct.t :=
  {| ApiProduct.id := "p1";
     ApiProduct.title := "Ring";
     ApiProduct.description := None;
     ApiProduct.price := None;
     ApiProduct.originalPrice := Some "500";
     ApiProduct.offerPrice := None;
     ApiProduct.category := Some "accessories";
     ApiProduct.subcategory := None;
     ApiProduct.imageUrl := Some "https://img.example/ring.png";
     ApiProduct.image := None;
     ApiProduct.badge := None;
     ApiProduct.availableQuantity := None |}.

(** A product of the gifts list whose only image is the legacy one. *)
Definition hamper : ApiProduct.t :=
  {| ApiProduct.id := "p2";
     ApiProduct.title := "Hamper";
     ApiProduct.description := Some "Tea and sweets";
     ApiProduct.price := Some "900";
     ApiProduct.originalPrice := None;
     ApiProduct.offerPrice := None;
     ApiProduct.category := Some "gifts";
     ApiProduct.subcategory := Some "Premium hampers";
     ApiProduct.imageUrl := None;
     ApiProduct.image := Some "https://img.example/legacy.png";
     ApiProduct.badge := None;
     ApiProduct.availableQuantity := None |}.

Definition catalog : Catalog.t := Catalog.mk [ring] [hamper].

Definition ok {T} (body : T) : Outcome (Response.t T) :=
  Resolved (Response.mk true 200%N (Resolved body)).

Definition refused {T} (body : Outcome T) : Outcome (Response.t T) :=
  Resolved (Response.mk false 500%N body).

Definition hosted : string := "https://img.example/hosted.png".

Definition healthy : Server.t unit :=
  {| Server.list_products := fun _ w => (w, ok catalog);
     Server.create_product := fun _ w => (w, ok ring);
     Server.update_product := fun _ w => (w, ok hamper);
     Server.delete_product := fun _ w => (w, ok ring);
     Server.upload := fun _ w => (w, ok (UploadBody.mk hosted "")) |}.

Definition upload_down : Server.t unit :=
  {| Server.list_products := fun _ w => (w, ok catalog);
     Server.create_product := fun _ w => (w, ok ring);
     Server.update_product := fun _ w => (w, ok hamper);
     Server.delete_product := fun _ w => (w, ok ring);
     Server.upload := fun _ w => (w, refused (Resolved (UploadBody.mk "" "disk full"))) |}.

Definition store_down : Server.t unit :=
  {| Server.list_products := fun _ w => (w, ok catalog);
     Server.create_product := fun _ w => (w, refused (Rejected "Unexpected token"));
     Server.update_product := fun _ w => (w, refused (Rejected "Unexpected token"));
     Server.delete_product := fun _ w => (w, refused (Rejected "Unexpected token"));
     Server.upload := fun _ w => (w, ok (UploadBody.mk hosted "")) |}.

(** An image host that answers with an empty [url]. *)
Definition blank_upload : Server.t unit :=
  {| Server.list_products := fun _ w => (w, ok catalog);
     Server.create_product := fun _ w => (w, ok ring);
     Server.update_product := fun _ w => (w, ok hamper);
     Server.delete_product := fun _ w => (w, ok ring);
     Server.upload := fun _ w => (w, ok (UploadBody.mk "" "")) |}.

Definition base : string := "http://localhost:4000".
Definition secret : string := "admin123".

(** The console right after login, nothing loaded yet. *)
Definition fresh : State.t :=
  initialState {["admin_authed" := "true"]}.

Definition photo : File.t := File.mk "ring.png".

(** The draft of the scenario: a ring for 500 with a pasted URL. *)
Definition ring_form : FormState.t :=
  {| FormState.title := "Ring";
     FormState.description := "";
     FormState.price := "";
     FormState.originalPrice := "500";
     FormState.offerPrice := "";
     FormState.category := "accessories";
     FormState.subcategory := "";
     FormState.badge := "";
     FormState.imageUrl := "https://img.example/ring.png";
     FormState.availableQuantity := "" |}.

Definition drafting_ring : State.t := setForm ring_form fresh.

(** The same draft with a title made of one space. *)
Definition blank_title : State.t :=
  setForm (FormState.set FormState.Title " " ring_form) fresh.

(** The ring draft with a picked file instead of a pasted URL. *)
Definition with_photo : State.t :=
  setImageFile (Some photo)
    (setForm (FormState.set FormState.ImageUrl "" ring_form) fresh).

(** An empty draft: nothing typed, nothing picked. *)
Definition empty_draft : State.t := fresh.

(** The ring draft with three pieces in stock. *)
Definition stocked_ring : State.t :=
  setForm (FormState.set FormState.AvailableQuantity "3" ring_form) fresh.

(** The ring draft with the category blanked. *)
Definition no_category : State.t :=
  setForm (FormState.set FormState.Category "" ring_form) fresh.

(** The ring draft with no image source at all. *)
Definition no_image : State.t :=
  setForm (FormState.set FormState.ImageUrl "" ring_form) fresh.

(** The hamper opened for editing, as begin-edit leaves it. *)
Definition editing_hamper : State.t :=
  setForm
    {| FormState.title := "Hamper";
       FormState.description := "Tea and sweets";
       FormState.price := "900";
       FormState.originalPrice := "";
       FormState.offerPrice := "";
       FormState.category := "gifts";
       FormState.subcategory := "Premium hampers";
       FormState.badge := "";
       FormState.imageUrl := "https://img.example/legacy.png";
       FormState.availableQuantity := "" |}
    (setEditingProduct (Some hamper) fresh).

(** A store that holds a catalog and, asked to delete, drops its
    accessories: the ring, when it holds the sample catalog. *)
Definition dropping : Server.t Catalog.t :=
  {| Server.list_products := fun _ w => (w, ok w);
     Server.create_product := fun _ w => (w, ok ring);
     Server.update_product := fun _ w => (w, ok hamper);
     Server.delete_product := fun _ w => (Catalog.mk [] (Catalog.gifts w), ok ring);
     Server.upload := fun _ w => (w, ok (UploadBody.mk hosted "")) |}.

(** The hamper opened for editing and moved to the other category with
    the category select. *)
Definition moved_hamper : State.t :=
  setForm
    (FormState.set FormState.Subcategory ""
       (FormState.set FormState.Category "accessories" (State.form editing_hamper)))
    editing_hamper.

(** The console of a browser profile that holds no marker, then with
    the shared password typed, and with a wrong one. *)
Definition logged_out : State.t := initialState ∅.

Definition typing_secret : State.t := setPassword secret logged_out.

Definition wrong_guess : State.t := setPassword "letmein" logged_out.

(** The console showing the sample catalog. *)
Definition listing : State.t := setProducts catalog fresh.

(** The create the ring draft sends, as the store that is down settles
    it, and as the healthy store does. *)
Definition refused_create : Exchange.t :=
  Exchange.mk CreateProduct
    (Request.mk POST (base ++ "/products")
       (Json (productData ring_form "https://img.example/ring.png")))
    (Rejected "HTTP 500").

Definition stored_create : Exchange.t :=
  Exchange.mk CreateProduct
    (Request.mk POST (base ++ "/products")
       (Json (productData ring_form "https://img.example/ring.png")))
    (Resolved (DProduct ring)).

(** The payloads the sample drafts are projected to. *)
Definition ring_payload : gmap string Js.Value :=
  productData ring_form "https://img.example/ring.png".

Definition photo_payload : gmap string Js.Value :=
  productData (State.form with_photo) hosted.

Definition stocked_payload : gmap string Js.Value :=
  productData (State.form stocked_ring) "https://img.example/ring.png".

End Sample.

(** * Properties *)

(** ** The primitives on concrete strings *)

Example parseInt_12 : Js.parseInt " 12px" = Js.Num 12.
Proof. reflexivity. Qed.

Example parseInt_negative : Js.parseInt "-7" = Js.Num (-7).
Proof. reflexivity. Qed.

Example parseInt_letters : Js.parseInt "abc" = Js.NaN.
Proof. reflexivity. Qed.

Example trim_spaces : Js.trim "   " = "".
Proof. reflexivity. Qed.

Example trim_ring : Js.trim "  Ring " = "Ring".
Proof. reflexivity. Qed.

Arguments productData : simpl never.
Arguments Js.trim : simpl never.
Arguments Js.nonempty : simpl never.
Arguments String.append : simpl never.
Arguments pretty : simpl never.
Arguments call : simpl never.

(** ** The payload projection, key by key *)

Implicit Types (o : gmap string Js.Value) (k : string) (form : FormState.t).

Lemma nonempty_true (x : string) : Js.nonempty x = true <-> x <> "".
Proof. unfold Js.nonempty. case_bool_decide; naive_solver. Qed.

Lemma nonempty_false (x : string) : Js.nonempty x = false <-> x = "".
Proof. unfold Js.nonempty. case_bool_decide; naive_solver. Qed.

Lemma lookup_delete_if_falsy_ne k k' o :
  k <> k' -> delete_if_falsy k o !! k' = o !! k'.
Proof.
  intros. unfold delete_if_falsy. destruct (Js.truthy (o !! k)); [done|].
  by rewrite lookup_delete_ne.
Qed.

Lemma lookup_delete_if_falsy_eq k o :
  delete_if_falsy k o !! k = if Js.truthy (o !! k) then o !! k else None.
Proof.
  unfold delete_if_falsy. destruct (Js.truthy (o !! k)); [done|].
  by rewrite lookup_delete_eq.
Qed.

Lemma lookup_quantity_ne form k o :
  k <> "availableQuantity" -> quantity_for_accessories form o !! k = o !! k.
Proof.
  intros. unfold quantity_for_accessories. case_match.
  - by rewrite lookup_insert_ne.
  - by rewrite lookup_delete_ne.
Qed.

Lemma lookup_quantity_eq form o :
  quantity_for_accessories form o !! "availableQuantity" =
    if bool_decide (FormState.category form = "accessories")
       && Js.nonempty (FormState.availableQuantity form)
    then Some (Js.parseInt (FormState.availableQuantity form))
    else None.
Proof.
  unfold quantity_for_accessories. case_match.
  - by rewrite lookup_insert_eq.
  - by rewrite lookup_delete_eq.
Qed.

Lemma lookup_backfill_ne k o :
  k <> "price" -> backfill_price o !! k = o !! k.
Proof.
  intros. unfold backfill_price.
  destruct (negb (Js.truthy (o !! "price")) && Js.truthy (o !! "originalPrice")); [|done].
  destruct (o !! "originalPrice"); [|done]. by rewrite lookup_insert_ne.
Qed.

Lemma lookup_backfill_eq o :
  backfill_price o !! "price" =
    if negb (Js.truthy (o !! "price")) && Js.truthy (o !! "originalPrice")
    then o !! "originalPrice" else o !! "price".
Proof.
  unfold backfill_price.
  destruct (negb (Js.truthy (o !! "price")) && Js.truthy (o !! "originalPrice")) eqn:E;
    [|done].
  destruct (o !! "originalPrice") eqn:E'; [by rewrite lookup_insert_eq|].
  by rewrite andb_false_r in E.
Qed.

(** Push a lookup through the steps of [productData], down to the
    draft. *)
Ltac payload_lookup :=
  unfold productData; cbv zeta;
  repeat first
    [ rewrite lookup_backfill_eq
    | rewrite lookup_backfill_ne by done
    | rewrite lookup_delete_if_falsy_eq
    | rewrite lookup_delete_if_falsy_ne by done
    | rewrite lookup_quantity_eq
    | rewrite lookup_quantity_ne by done
    | rewrite lookup_insert_eq
    | rewrite lookup_insert_ne by done
    | rewrite lookup_empty ];
  unfold spread;
  repeat first
    [ rewrite lookup_insert_eq
    | rewrite lookup_insert_ne by done
    | rewrite lookup_empty ].

Lemma productData_title form u :
  productData form u !! "title" = Some (Js.Str (FormState.title form)).
Proof. payload_lookup. done. Qed.

Lemma productData_description form u :
  productData form u !! "description" = Some (Js.Str (FormState.description form)).
Proof. payload_lookup. done. Qed.

Lemma productData_category form u :
  productData form u !! "category" = Some (Js.Str (FormState.category form)).
Proof. payload_lookup. done. Qed.

Lemma productData_imageUrl form u :
  productData form u !! "imageUrl" = Some (Js.Str u).
Proof. payload_lookup. done. Qed.

Lemma productData_originalPrice form u :
  productData form u !! "originalPrice" =
    if Js.nonempty (FormState.originalPrice form)
    then Some (Js.Str (FormState.originalPrice form)) else None.
Proof. payload_lookup. simpl. unfold Js.nonempty. by case_match. Qed.

Lemma productData_offerPrice form u :
  productData form u !! "offerPrice" =
    if Js.nonempty (FormState.offerPrice form)
    then Some (Js.Str (FormState.offerPrice form)) else None.
Proof. payload_lookup. simpl. unfold Js.nonempty. by case_match. Qed.

Lemma productData_subcategory form u :
  productData form u !! "subcategory" =
    if Js.nonempty (FormState.subcategory form)
    then Some (Js.Str (FormState.subcategory form)) else None.
Proof. payload_lookup. simpl. unfold Js.nonempty. by case_match. Qed.

Lemma productData_badge form u :
  productData form u !! "badge" =
    if Js.nonempty (FormState.badge form)
    then Some (Js.Str (FormState.badge form)) else None.
Proof. payload_lookup. simpl. unfold Js.nonempty. by case_match. Qed.

Lemma productData_availableQuantity form u :
  productData form u !! "availableQuantity" =
    if bool_decide (FormState.category form = "accessories")
       && Js.nonempty (FormState.availableQuantity form)
    then Some (Js.parseInt (FormState.availableQuantity form))
    else None.
Proof. payload_lookup. done. Qed.

Lemma productData_price form u :
  productData form u !! "price" =
    Some (Js.Str (if Js.nonempty (FormState.price form) then FormState.price form
                  else FormState.originalPrice form)).
Proof.
  payload_lookup. simpl. unfold Js.nonempty.
  repeat (case_bool_decide; simpl); congruence.
Qed.

Lemma productData_other form u k :
  k ∉ ["title"; "description"; "price"; "originalPrice"; "offerPrice"; "category";
       "subcategory"; "badge"; "imageUrl"; "availableQuantity"] ->
  productData form u !! k = None.
Proof.
  intros Hk. repeat (apply not_elem_of_cons in Hk as [? Hk]).
  payload_lookup. done.
Qed.

Lemma productData_image form u : productData form u !! "image" = None.
Proof.
  apply productData_other. intros H.
  repeat (apply elem_of_cons in H as [?|H]; [done|]). by apply elem_of_nil in H.
Qed.

(** ** Running the handlers *)

Section Properties.

Context {World : Type}.
Variable API_BASE : string.
Variable ADMIN_PASSWORD : string.
Variable server : Server.t World.

(** A call of the client only looks at the world: it settles the same
    way whatever the state of the component, and appends one exchange
    to the transcript. *)
Lemma call_inv {T R} name request
    (endpoint : Request.t -> World -> World * Outcome (Response.t T))
    (settle : Response.t T -> Outcome R) (data : R -> Data) (w : World) :
  exists r w', forall a t,
    call name request endpoint settle data (Machine.mk a w t)
    = (r, Machine.mk a w' (t ++ [Exchange.mk name request (omap_outcome data r)])).
Proof.
  unfold call. simpl. destruct (endpoint request w) as [w' fetched].
  eexists _, w'. intros a t. reflexivity.
Qed.

Ltac unfold_console :=
  unfold resolvable, after, run, dispatch, handler, mount, handleSubmit,
    handleDelete, handleCancelEdit, handleEdit, handleLogin, handleChange,
    onCategoryChange, onFileChange, onImageUrlChange, load, resetFileInput,
    uploadImage, createProduct, updateProduct, deleteProduct, fetchAllProducts,
    mbind, M_bind, bind, closure, update, try_finally, try_catch, when, throw,
    ret in *.

Ltac tidy :=
  simpl; change (Js.nonempty "") with false;
  repeat match goal with
    | |- context [bool_decide (?a = ?a)] =>
        rewrite (bool_decide_eq_true_2 (a = a) eq_refl)
    end;
  rewrite ?andb_false_r, ?andb_true_r; simpl.

(** Settle the next call of the client in the goal. *)
Ltac exec_call :=
  match goal with
  | Hc : (forall a t, call ?n ?rq ?ep ?st ?d (Machine.mk a ?w t) = _)
    |- context [call ?n ?rq ?ep ?st ?d (Machine.mk ?a' ?w ?t')] =>
      rewrite (Hc a' t'); tidy
  | |- context [call ?n ?rq ?ep ?st ?d (Machine.mk ?a ?w ?t)] =>
      let r := fresh "r" in
      let w' := fresh "w" in
      let H := fresh "Hcall" in
      destruct (call_inv n rq ep st d w) as (r & w' & H);
      rewrite (H a t); destruct r; tidy
  end.

Ltac call_in H :=
  match type of H with
  | context [call ?n ?rq ?ep ?st ?d (Machine.mk ?a ?w ?t)] =>
      let r := fresh "r" in
      let w' := fresh "w" in
      let Hc := fresh "Hcall" in
      destruct (call_inv n rq ep st d w) as (r & w' & Hc);
      rewrite (Hc a t) in H; simpl in H
  end.

(** Use what was already decided about a test. *)
Ltac exec_known :=
  match goal with
  | E : ?x = true |- context [?x] => rewrite E
  | E : ?x = false |- context [?x] => rewrite E
  | E : ?x = Some _ |- context [?x] => rewrite E
  | E : ?x = None |- context [?x] => rewrite E
  end; tidy.

(** Decide the innermost test the run is stuck on. *)
Ltac exec_step :=
  first
    [ exec_known
    | exec_call
    | match goal with
      | |- context [Js.present ?o] =>
          let E := fresh "E" in destruct o eqn:E; tidy
      | |- context [match ?x with _ => _ end] =>
          lazymatch x with
          | context [match _ with _ => _ end] => fail
          | context [call] => fail
          | _ =>
              let E := fresh "E" in
              destruct x eqn:E; try (simpl in E; discriminate E); tidy
          end
      end ].

Ltac exec := unfold_console; tidy; repeat exec_step.

Lemma sent_payload_inv s w p :
  p ∈ sent_payloads (Machine.transcript (after (handleSubmit API_BASE server) s w)) ->
  exists u, p = productData (State.form s) u.
Proof.
  exec; unfold sent_payloads; simpl; intros Hp;
    repeat (apply elem_of_cons in Hp as [->|Hp]; [by eexists|]);
    by apply elem_of_nil in Hp.
Qed.

(** A valid draft with a resolvable image sends one payload. *)
Lemma resolvable_submit_sends s w :
  Js.trim (FormState.title (State.form s)) <> "" ->
  FormState.category (State.form s) <> "" ->
  resolvable API_BASE server s w ->
  exists u,
    sent_payloads (Machine.transcript (after (handleSubmit API_BASE server) s w))
    = [productData (State.form s) u].
Proof.
  intros Htitle%nonempty_true Hcategory%nonempty_true Hresolvable.
  unfold_console. simpl. rewrite Htitle, Hcategory. simpl.
  destruct (State.imageFile s) as [file|] eqn:Hfile; simpl in *.
  - destruct Hresolvable as (u & Hu & Hok). call_in Hu. subst r.
    exec_call.
    assert (negb (Js.nonempty u) && negb (Js.present (State.editingProduct s)) = false)
      as Hguard.
    { destruct Hok as [Hu%nonempty_true|[? Hsome]]; [by rewrite Hu|].
      rewrite Hsome. simpl. apply andb_false_r. }
    rewrite Hguard. simpl. clear Hguard Hok.
    repeat exec_step; by eexists.
  - assert (negb (Js.nonempty (FormState.imageUrl (State.form s)))
            && negb (Js.present (State.editingProduct s)) = false) as Hguard.
    { destruct Hresolvable as [Hu%nonempty_true|[? Hsome]]; [by rewrite Hu|].
      rewrite Hsome. simpl. apply andb_false_r. }
    rewrite Hguard. simpl. clear Hguard Hresolvable.
    repeat exec_step; by eexists.
Qed.

(** ** The outbound payload *)

Ltac nonempty_cases :=
  repeat match goal with
    | H : _ = "" |- _ => apply nonempty_false in H; rewrite H in *
    | H : _ <> "" |- _ => apply nonempty_true in H; rewrite H in *
    end.

(** C1 (amended). For every submitted draft (create or update), each of
    the optional fields originalPrice, offerPrice, subcategory, badge
    and availableQuantity that the operator left as the empty string is
    absent from the outbound payload, and none of these five keys is
    ever bound to an empty string. The description, the legacy price
    and the image reference are always sent with the value they have,
    the empty string included. *)
Theorem C1_optional_blanks_are_dropped s w p :
  p ∈ sent_payloads (Machine.transcript (after (handleSubmit API_BASE server) s w)) ->
  let form := State.form s in
  (FormState.originalPrice form = "" -> p !! "originalPrice" = None) /\
  (FormState.offerPrice form = "" -> p !! "offerPrice" = None) /\
  (FormState.subcategory form = "" -> p !! "subcategory" = None) /\
  (FormState.badge form = "" -> p !! "badge" = None) /\
  (FormState.availableQuantity form = "" -> p !! "availableQuantity" = None) /\
  (forall k, k ∈ ["originalPrice"; "offerPrice"; "subcategory"; "badge";
                  "availableQuantity"] ->
             p !! k <> Some (Js.Str "")) /\
  p !! "description" = Some (Js.Str (FormState.description form)) /\
  p !! "price" =
    Some (Js.Str (if Js.nonempty (FormState.price form) then FormState.price form
                  else FormState.originalPrice form)) /\
  (exists u, p !! "imageUrl" = Some (Js.Str u)).
Proof.
  intros [u ->]%sent_payload_inv form.
  rewrite productData_originalPrice, productData_offerPrice, productData_subcategory,
    productData_badge, productData_availableQuantity, productData_description,
    productData_price, productData_imageUrl.
  fold form.
  repeat split; try (intros; nonempty_cases; by rewrite ?andb_false_r); [|by eexists].
  intros k Hk.
  repeat (apply elem_of_cons in Hk as [->|Hk]); [..|by apply elem_of_nil in Hk].
  - rewrite productData_originalPrice.
    destruct (Js.nonempty _) eqn:E; [apply nonempty_true in E|]; congruence.
  - rewrite productData_offerPrice.
    destruct (Js.nonempty _) eqn:E; [apply nonempty_true in E|]; congruence.
  - rewrite productData_subcategory.
    destruct (Js.nonempty _) eqn:E; [apply nonempty_true in E|]; congruence.
  - rewrite productData_badge.
    destruct (Js.nonempty _) eqn:E; [apply nonempty_true in E|]; congruence.
  - rewrite productData_availableQuantity.
    case_match; [|done]. unfold Js.parseInt, Js.number_of. repeat case_match; congruence.
Qed.

(** C5. For every submitted draft whose legacy price is empty and whose
    originalPrice is not, the price of the outbound payload is the
    originalPrice. In particular, creating the draft with title Ring,
    category accessories, originalPrice 500, no offerPrice and a pasted
    image URL sends, as its first and only mutation, a create whose
    payload has no offerPrice, badge, subcategory or availableQuantity
    and whose price is 500. *)
Theorem C5_legacy_price_backfilled s w :
  (forall p,
     p ∈ sent_payloads (Machine.transcript (after (handleSubmit API_BASE server) s w)) ->
     FormState.price (State.form s) = "" ->
     FormState.originalPrice (State.form s) <> "" ->
     p !! "price" = Some (Js.Str (FormState.originalPrice (State.form s)))) /\
  (forall url,
     url <> "" ->
     State.form s = FormState.set FormState.ImageUrl url Sample.ring_form ->
     State.imageFile s = None ->
     State.editingProduct s = None ->
     exists p,
       sent_payloads (Machine.transcript (after (handleSubmit API_BASE server) s w)) = [p] /\
       p !! "offerPrice" = None /\
       p !! "badge" = None /\
       p !! "subcategory" = None /\
       p !! "availableQuantity" = None /\
       p !! "price" = Some (Js.Str "500")).
Proof.
  split.
  - intros p [u ->]%sent_payload_inv Hprice Horiginal.
    rewrite productData_price. by nonempty_cases.
  - intros url Hurl Hform Hfile Hediting.
    exists (productData (State.form s) url). split.
    + unfold_console. simpl. rewrite Hform, Hfile, Hediting. simpl.
      apply nonempty_true in Hurl. rewrite Hurl. simpl.
      exec_call; by repeat exec_step.
    + rewrite productData_offerPrice, productData_badge, productData_subcategory,
        productData_availableQuantity, productData_price, Hform.
      done.
Qed.

(** C6. The outbound payload contains availableQuantity if and only if
    the category of the draft is accessories and the quantity field is
    not empty, and its value is then [parseInt] of the field; a draft
    submitted with category gifts never sends availableQuantity,
    whatever the quantity field holds. *)
Theorem C6_quantity_only_for_accessories s w p :
  p ∈ sent_payloads (Machine.transcript (after (handleSubmit API_BASE server) s w)) ->
  let form := State.form s in
  (is_Some (p !! "availableQuantity") <->
     FormState.category form = "accessories" /\ FormState.availableQuantity form <> "") /\
  (FormState.category form = "accessories" ->
   FormState.availableQuantity form <> "" ->
   p !! "availableQuantity" = Some (Js.parseInt (FormState.availableQuantity form))) /\
  (FormState.category form = "gifts" -> p !! "availableQuantity" = None).
Proof.
  intros [u ->]%sent_payload_inv form.
  rewrite productData_availableQuantity. fold form.
  destruct (decide (FormState.category form = "accessories")) as [Hc|Hc];
    [rewrite (bool_decide_eq_true_2 _ Hc)|rewrite (bool_decide_eq_false_2 _ Hc)];
    (destruct (Js.nonempty (FormState.availableQuantity form)) eqn:Hq;
     [apply nonempty_true in Hq|apply nonempty_false in Hq]); simpl;
    rewrite ?is_Some_alt; split_and!; try tauto; try congruence.
  all: intros Hg; by rewrite Hg in Hc.
Qed.

(** C10. No create or update payload contains the legacy image key.
    When the product being edited has its only image reference in the
    legacy image field, no file is selected and the URL field is as
    begin-edit left it or cleared, the update sends that reference
    under imageUrl. Begin-edit itself puts the draft in that situation. *)
Theorem C10_legacy_image_sent_as_imageUrl s w :
  (forall p,
     p ∈ sent_payloads (Machine.transcript (after (handleSubmit API_BASE server) s w)) ->
     p !! "image" = None) /\
  (forall product legacy,
     State.editingProduct s = Some product ->
     ApiProduct.imageUrl product = None \/ ApiProduct.imageUrl product = Some "" ->
     ApiProduct.image product = Some legacy ->
     legacy <> "" ->
     State.imageFile s = None ->
     FormState.imageUrl (State.form s) = ""
       \/ FormState.imageUrl (State.form s) = existing_image product ->
     Js.trim (FormState.title (State.form s)) <> "" ->
     FormState.category (State.form s) <> "" ->
     exists x p,
       mutations (Machine.transcript (after (handleSubmit API_BASE server) s w)) = [x] /\
       Exchange.api x = UpdateProduct /\
       payload_of x = Some p /\
       p !! "imageUrl" = Some (Js.Str legacy) /\
       p !! "image" = None) /\
  (forall product,
     let s' := Machine.app (after (handleEdit product) s w) in
     State.editingProduct s' = Some product /\
     State.imageFile s' = None /\
     FormState.imageUrl (State.form s') = existing_image product).
Proof.
  split_and!.
  - intros p [u ->]%sent_payload_inv. apply productData_image.
  - intros product legacy Hediting Hurl Himage Hlegacy Hfile Hfield Htitle Hcategory.
    assert (existing_image product = legacy) as Hexisting.
    { unfold existing_image. rewrite Himage.
      apply nonempty_true in Hlegacy.
      destruct Hurl as [-> | ->]; simpl; by rewrite Hlegacy. }
    rewrite Hexisting in Hfield.
    apply nonempty_true in Htitle, Hcategory.
    unfold_console. simpl.
    rewrite Hediting, Hfile, Htitle, Hcategory. simpl.
    fold (existing_image product). rewrite Hexisting.
    assert (forall u, u = "" \/ u = legacy ->
              (if negb (Js.nonempty u) && true then legacy else u) = legacy) as Hpick.
    { intros u [-> | ->]; [done|]. apply nonempty_true in Hlegacy. by rewrite Hlegacy. }
    rewrite (Hpick _ Hfield).
    rewrite andb_false_r. simpl.
    exec_call; repeat exec_step.
    all: eexists _, (productData (State.form s) legacy).
    all: split_and!;
      [reflexivity|done|done|apply productData_imageUrl|apply productData_image].
  - intros product. unfold_console. simpl. unfold existing_image.
    by destruct (State.authed s).
Qed.

(** ** Drafting *)

(** C8. Changing the category through the category control leaves the
    draft with the new category and an empty subcategory, whatever the
    draft was. *)
Theorem C8_category_change_clears_subcategory s w value :
  let form' := State.form (Machine.app (after (onCategoryChange value) s w)) in
  let form'' :=
    State.form
      (Machine.app
         (after (dispatch API_BASE ADMIN_PASSWORD server (CategoryChange value)) s w)) in
  FormState.subcategory form' = "" /\
  FormState.category form' = value /\
  form'' = form'.
Proof.
  unfold_console. simpl. split_and!; try done.
  by rewrite bool_decide_eq_true_2.
Qed.

(** With no event handled while the request is in flight, the two
    halves of [handleDelete] make the handler run to completion. *)
Lemma handleDelete_uninterrupted id category (m : Machine.t World) :
  handleDelete_during API_BASE ADMIN_PASSWORD server [] id category m
  = handleDelete API_BASE server id category m.
Proof. reflexivity. Qed.

(** A delete that runs to completion with no event in between: when
    the product whose identifier is the edit target is successfully
    deleted, the draft is reset to the initial form, the edit target is
    cleared and the selected file is cleared; deleting a product that
    is not the edit target leaves the draft, the target and the
    selected file as they were. *)
Lemma delete_resets_the_edited_draft s w id category :
  let s' := Machine.app (after (handleDelete API_BASE server id category) s w) in
  (forall product deleted,
     State.editingProduct s = Some product ->
     ApiProduct.id product = id ->
     (run (deleteProduct API_BASE server id category) s w).1 = Resolved deleted ->
     State.form s' = initialForm /\
     State.editingProduct s' = None /\
     State.imageFile s' = None /\
     (State.authed s = true -> State.fileInput s' = "")) /\
  ((forall product, State.editingProduct s = Some product -> ApiProduct.id product <> id) ->
     State.form s' = State.form s /\
     State.editingProduct s' = State.editingProduct s /\
     State.imageFile s' = State.imageFile s).
Proof.
  split.
  - intros product deleted Hediting Hid Hdeleted.
    unfold_console. simpl in *. call_in Hdeleted. subst r.
    rewrite Hediting. simpl. rewrite Hid, bool_decide_eq_true_2 by done. simpl.
    repeat exec_step; split_and!; try done; congruence.
  - intros Hother.
    assert (bool_decide (ApiProduct.id <$> State.editingProduct s = Some id) = false) as Hb.
    { apply bool_decide_eq_false_2. destruct (State.editingProduct s) eqn:E; [|done].
      simpl. intros [= ?]. by eapply Hother. }
    unfold_console. simpl. exec_call; rewrite ?Hb; simpl; by repeat exec_step.
Qed.

(** ** Submitting *)

Ltac sent_inv H :=
  unfold sent_payloads in H; simpl in H;
  repeat (apply elem_of_cons in H as [->|H]);
  try (by apply elem_of_nil in H).

(** C2. The image reference of the outbound payload follows a fixed
    precedence: with a file selected it is the URL the upload call
    returned, whatever was typed; else a typed, non-empty URL is sent as
    it is; else the product being edited keeps its existing reference
    (imageUrl, or the legacy image); else, creating with no image
    source, the submit fails with a validation error and sends nothing.
    A draft with a title, a category and a resolvable image does send
    one payload. Selecting a file clears the typed URL, and typing a
    non-empty URL clears the selected file. *)
Theorem C2_image_precedence s w :
  let m := after (handleSubmit API_BASE server) s w in
  let form := State.form s in
  (forall p file,
     p ∈ sent_payloads (Machine.transcript m) ->
     State.imageFile s = Some file ->
     exists u, (run (uploadImage API_BASE server file) s w).1 = Resolved u
               /\ p !! "imageUrl" = Some (Js.Str u)) /\
  (forall p,
     p ∈ sent_payloads (Machine.transcript m) ->
     State.imageFile s = None ->
     FormState.imageUrl form <> "" ->
     p !! "imageUrl" = Some (Js.Str (FormState.imageUrl form))) /\
  (forall p,
     p ∈ sent_payloads (Machine.transcript m) ->
     State.imageFile s = None ->
     FormState.imageUrl form = "" ->
     exists product,
       State.editingProduct s = Some product
       /\ p !! "imageUrl" = Some (Js.Str (existing_image product))) /\
  (State.imageFile s = None ->
   FormState.imageUrl form = "" ->
   State.editingProduct s = None ->
   Machine.transcript m = [] /\
   exists message,
     State.error (Machine.app m) = Some message
     /\ message ∈ [title_required; category_required; image_required]
     /\ (Js.trim (FormState.title form) <> "" ->
         FormState.category form <> "" ->
         message = image_required)) /\
  (Js.trim (FormState.title form) <> "" ->
   FormState.category form <> "" ->
   resolvable API_BASE server s w ->
   exists p, sent_payloads (Machine.transcript m) = [p]) /\
  (forall file,
     let s' := Machine.app (after (onFileChange (Some file)) s w) in
     State.imageFile s' = Some file /\ FormState.imageUrl (State.form s') = "") /\
  (forall value,
     value <> "" ->
     let s' := Machine.app (after (onImageUrlChange value) s w) in
     State.imageFile s' = None /\ FormState.imageUrl (State.form s') = value).
Proof.
  split_and!.
  - intros p file Hp Hfile. revert Hp.
    unfold_console. simpl. rewrite Hfile. tidy.
    repeat exec_step; intros Hp; sent_inv Hp;
      (eexists; split; [reflexivity|apply productData_imageUrl]).
  - intros p Hp Hfile Hurl. revert Hp.
    apply nonempty_true in Hurl.
    unfold_console. simpl. rewrite Hfile, Hurl. tidy.
    repeat exec_step; intros Hp; sent_inv Hp; apply productData_imageUrl.
  - intros p Hp Hfile Hurl. revert Hp.
    unfold_console. simpl. rewrite Hfile, Hurl. tidy.
    repeat exec_step; intros Hp; sent_inv Hp;
      (eexists; split; [reflexivity|apply productData_imageUrl]).
  - intros Hfile Hurl Hediting.
    unfold_console. simpl. rewrite Hfile, Hurl, Hediting. tidy.
    repeat exec_step; (split; [done|]); eexists; (split; [reflexivity|]);
      (split; [set_solver|]); intros Htitle%nonempty_true Hcategory%nonempty_true;
      try reflexivity; exfalso;
      match goal with
      | E : negb _ = true |- _ => rewrite ?Htitle, ?Hcategory in E; discriminate E
      end.
  - intros Htitle Hcategory Hresolvable.
    destruct (resolvable_submit_sends s w Htitle Hcategory Hresolvable) as [u Hu].
    by eexists.
  - done.
  - intros value Hvalue%nonempty_true. unfold_console. simpl. by rewrite Hvalue.
Qed.

Lemma length_append (a b : string) :
  String.length (a ++ b) = (String.length a + String.length b)%nat.
Proof. induction a as [|c a IH]; [done|]. simpl. by rewrite <- IH. Qed.

Lemma wrapped_is_not_raw (message : string) :
  "Image upload failed: " ++ message <> message.
Proof.
  intros H%(f_equal String.length). rewrite length_append in H. simpl in H. lia.
Qed.

(** C7. A submit with a blank title, with an empty category, with no
    image source on create, or whose image upload fails sends no create
    and no update and leaves an error message. For the three presence
    checks nothing at all is sent. An upload failure surfaces as the
    transport message wrapped as an image-upload problem, which is never
    the raw message. *)
Theorem C7_failed_submit_sends_no_mutation s w :
  let m := after (handleSubmit API_BASE server) s w in
  let form := State.form s in
  let error := State.error (Machine.app m) in
  (Js.trim (FormState.title form) = "" ->
   Machine.transcript m = [] /\ error = Some title_required) /\
  (Js.trim (FormState.title form) <> "" ->
   FormState.category form = "" ->
   Machine.transcript m = [] /\ error = Some category_required) /\
  (Js.trim (FormState.title form) <> "" ->
   FormState.category form <> "" ->
   State.imageFile s = None ->
   FormState.imageUrl form = "" ->
   State.editingProduct s = None ->
   Machine.transcript m = [] /\ error = Some image_required) /\
  (forall file message,
     State.imageFile s = Some file ->
     (run (uploadImage API_BASE server file) s w).1 = Rejected message ->
     mutations (Machine.transcript m) = [] /\
     sent_payloads (Machine.transcript m) = [] /\
     is_Some error /\
     (Js.trim (FormState.title form) <> "" ->
      FormState.category form <> "" ->
      error = Some ("Image upload failed: " ++ message)
      /\ error <> Some message)).
Proof.
  split_and!.
  - intros Htitle%nonempty_false. unfold_console. simpl. by rewrite Htitle.
  - intros Htitle%nonempty_true Hcategory%nonempty_false.
    unfold_console. simpl. by rewrite Htitle, Hcategory.
  - intros Htitle%nonempty_true Hcategory%nonempty_true Hfile Hurl Hediting.
    unfold_console. simpl. by rewrite Htitle, Hcategory, Hfile, Hurl, Hediting.
  - intros file message Hfile Hrejected.
    unfold_console. simpl in *. call_in Hrejected. subst r.
    rewrite Hfile. simpl.
    destruct (Js.nonempty (Js.trim _)) eqn:Htitle; simpl;
      [|split_and!; [done|done|by eauto|intros H%nonempty_true; congruence]].
    destruct (Js.nonempty (FormState.category _)) eqn:Hcategory; simpl;
      [|split_and!; [done|done|by eauto|intros _ H%nonempty_true; congruence]].
    exec_call.
    split_and!; try done.
    intros _ _. split; [done|]. intros [= H]. by apply wrapped_is_not_raw in H.
Qed.

(** C3 (amended). For every draft whose title is not blank (not empty
    once trimmed), with a valid category and a resolvable image, submit
    issues exactly one mutation call: when a product is being edited, an
    update scoped to that product's identifier, and to its category as
    long as the draft still has the product's category, otherwise a
    create; both carry the projected payload. When that call succeeds
    the draft is the initial form again, the edit target is cleared and
    the selected file is cleared. *)
Theorem C3_one_mutation_then_reset s w :
  Js.trim (FormState.title (State.form s)) <> "" ->
  FormState.category (State.form s) ∈ ["accessories"; "gifts"] ->
  resolvable API_BASE server s w ->
  let m := after (handleSubmit API_BASE server) s w in
  exists x p,
    mutations (Machine.transcript m) = [x] /\
    Exchange.api x =
      match State.editingProduct s with
      | Some _ => UpdateProduct
      | None => CreateProduct
      end /\
    match State.editingProduct s with
    | Some product =>
        exists category,
          Exchange.request x
          = Request.mk PUT
              (API_BASE ++ "/products/" ++ ApiProduct.id product
                 ++ "?category=" ++ category)
              (Json p)
          /\ (ApiProduct.category product = Some (FormState.category (State.form s)) ->
              ApiProduct.category product = Some category)
    | None => Exchange.request x = Request.mk POST (API_BASE ++ "/products") (Json p)
    end /\
    (exists u, p = productData (State.form s) u) /\
    (settled x = true ->
     State.form (Machine.app m) = initialForm /\
     State.editingProduct (Machine.app m) = None /\
     State.imageFile (Machine.app m) = None /\
     (State.authed s = true -> State.fileInput (Machine.app m) = "")).
Proof.
  intros Htitle%nonempty_true Hcategory Hresolvable.
  assert (Js.nonempty (FormState.category (State.form s)) = true) as Hc.
  { apply nonempty_true. intros Hempty. rewrite Hempty in Hcategory.
    repeat (apply elem_of_cons in Hcategory as [?|Hcategory]; [done|]).
    by apply elem_of_nil in Hcategory. }
  unfold_console. simpl. rewrite Htitle, Hc. simpl.
  destruct (State.imageFile s) as [file|] eqn:Hfile; simpl in *.
  - destruct Hresolvable as (u & Hu & Hok). call_in Hu. subst r.
    exec_call.
    assert (negb (Js.nonempty u) && negb (Js.present (State.editingProduct s)) = false)
      as Hguard.
    { destruct Hok as [Hu%nonempty_true|[? Hsome]]; [by rewrite Hu|].
      rewrite Hsome. simpl. apply andb_false_r. }
    rewrite Hguard. simpl. clear Hguard Hok.
    repeat exec_step;
      (eexists _, _; split_and!;
         [reflexivity|reflexivity|try reflexivity; by eexists|by eexists|];
       unfold settled; simpl; intros; split_and!; congruence).
  - assert (negb (Js.nonempty (FormState.imageUrl (State.form s)))
            && negb (Js.present (State.editingProduct s)) = false) as Hguard.
    { destruct Hresolvable as [Hu%nonempty_true|[? Hsome]]; [by rewrite Hu|].
      rewrite Hsome. simpl. apply andb_false_r. }
    rewrite Hguard. simpl. clear Hguard Hresolvable.
    repeat exec_step;
      (eexists _, _; split_and!;
         [reflexivity|reflexivity|try reflexivity; by eexists|by eexists|];
       unfold settled; simpl; intros; split_and!; congruence).
Qed.

(** ** Reload after mutation *)

Lemma reload_discipline_spec t :
  reload_discipline t = true ->
  forall t1 x t2,
    t = (t1 ++ x :: t2)%list ->
    is_mutation x = true ->
    if settled x then exists g, t2 = [g] /\ is_reload g = true else t2 = [].
Proof.
  induction t as [|y t IH]; intros H t1 x t2 Heq Hx.
  - by destruct t1.
  - destruct t1 as [|y' t1]; simplify_eq/=.
    + rewrite Hx in H. destruct (settled x).
      * destruct t2 as [|g [|? ?]]; try done. by exists g.
      * by destruct t2.
    + destruct (is_mutation y') eqn:Hy; [|by eapply IH].
      exfalso. destruct (settled y').
      * destruct t1 as [|? t1]; simpl in H.
        -- destruct t2; [|done]. unfold is_reload, is_mutation in *.
           case_bool_decide as Hg; [|done]. by rewrite Hg in Hx.
        -- by destruct t1.
      * by destruct t1.
Qed.

Ltac snapshot_leaf :=
  unfold kept_or_reloaded; simpl;
  split;
  [ first [ left; reflexivity
          | right; eexists _, _; split_and!; reflexivity ]
  | reflexivity ].

Lemma dispatch_reloads s w e :
  let m := after (dispatch API_BASE ADMIN_PASSWORD server e) s w in
  kept_or_reloaded s m /\ reload_discipline (Machine.transcript m) = true.
Proof.
  destruct e; exec; snapshot_leaf.
Qed.

(** C4. The catalog snapshot only changes by being replaced, whole,
    with the response of a reload: after any event (and after the first
    render) it is the snapshot found or the catalog the last call, a
    reload, answered with. In the transcript of any event a create,
    update or delete that succeeded is followed by exactly one reload
    and nothing else, and one that failed is followed by nothing; after
    a failed mutation the snapshot is the one found. *)
Theorem C4_snapshot_only_replaced_by_reload s w e :
  let m := after (dispatch API_BASE ADMIN_PASSWORD server e) s w in
  let t := Machine.transcript m in
  kept_or_reloaded s m /\
  kept_or_reloaded s (after (mount API_BASE server) s w) /\
  (forall t1 x t2,
     t = (t1 ++ x :: t2)%list ->
     is_mutation x = true ->
     if settled x then exists g, t2 = [g] /\ is_reload g = true else t2 = []) /\
  (forall x,
     x ∈ t ->
     is_mutation x = true ->
     settled x = false ->
     State.products (Machine.app m) = State.products s).
Proof.
  intros m t.
  destruct (dispatch_reloads s w e) as [Hsnapshot Hdiscipline].
  fold m in Hsnapshot, Hdiscipline. fold t in Hdiscipline.
  assert (forall t1 x t2,
            t = (t1 ++ x :: t2)%list ->
            is_mutation x = true ->
            if settled x then exists g, t2 = [g] /\ is_reload g = true else t2 = [])
    as Hfollow by (by apply reload_discipline_spec).
  split_and!; [done| |done|].
  - exec; by (left + (right; eexists _, _)).
  - intros x (t1 & t2 & Heq)%list_elem_of_split Hx Hfailed.
    pose proof (Hfollow _ _ _ Heq Hx) as Hlast. rewrite Hfailed in Hlast. subst t2.
    destruct Hsnapshot as [?|(x' & c & Hx' & Hapi & _)]; [done|].
    fold t in Hx'. rewrite Heq, last_snoc in Hx'. simplify_eq.
    unfold is_mutation in Hx. by rewrite Hapi in Hx.
Qed.

(** ** More on the JavaScript primitives *)

Lemma trimStart_empty (s : string) :
  Js.trimStart s = "" <-> all_white_space s = true.
Proof.
  induction s as [|a s IH]; simpl; [done|].
  destruct (Js.is_white_space a); simpl; [done|]. split; discriminate.
Qed.

Lemma all_white_space_rev_app (s acc : string) :
  all_white_space (String.rev_app s acc) = all_white_space s && all_white_space acc.
Proof.
  revert acc. induction s as [|a s IH]; intros acc; simpl; [done|].
  rewrite IH. simpl. destruct (Js.is_white_space a), (all_white_space s); done.
Qed.

Lemma rev_app_empty (s acc : string) : String.rev_app s acc = "" -> s = "" /\ acc = "".
Proof.
  revert acc. induction s as [|a s IH]; intros acc; simpl; [done|].
  intros [_ [=]]%IH.
Qed.

Lemma trimStart_white (s : string) :
  all_white_space (Js.trimStart s) = all_white_space s.
Proof.
  induction s as [|a s IH]; simpl; [done|].
  destruct (Js.is_white_space a) eqn:E; simpl; [done|]. by rewrite E.
Qed.

Lemma trim_empty (s : string) : Js.trim s = "" <-> all_white_space s = true.
Proof.
  unfold Js.trim, Js.trimEnd, String.rev. split.
  - intros [Hrev _]%rev_app_empty. apply trimStart_empty in Hrev.
    rewrite all_white_space_rev_app, trimStart_white in Hrev.
    by apply andb_true_iff in Hrev as [? _].
  - intros Hwhite. apply trimStart_empty in Hwhite. by rewrite Hwhite.
Qed.

Lemma digit_pretty_N_char (m : N) :
  (m < 10)%N -> Js.digit (pretty_N_char m) = Some (Z.of_N m).
Proof.
  intros Hm.
  assert (m = 0 \/ m = 1 \/ m = 2 \/ m = 3 \/ m = 4 \/ m = 5 \/ m = 6 \/ m = 7
          \/ m = 8 \/ m = 9)%N as Hcases by lia.
  repeat (destruct Hcases as [->|Hcases]; [reflexivity|]). by subst.
Qed.

Lemma digits_pretty_N_go (x : N) (s : string) (acc : option Z) :
  (0 < x)%N ->
  default 0 acc = 0 ->
  Js.digits (pretty_N_go x s) acc = Js.digits s (Some (Z.of_N x)).
Proof.
  revert s. induction (N.lt_wf_0 x) as [x _ IH]; intros s Hx Hacc.
  rewrite pretty_N_go_step by done.
  destruct (N.eq_0_gt_0_cases (x `div` 10)) as [Hq|Hq].
  - rewrite Hq, pretty_N_go_0. simpl.
    rewrite digit_pretty_N_char by (apply N.mod_lt; lia).
    rewrite Hacc. f_equal. f_equal.
    pose proof (N.div_mod x 10). rewrite Hq in *. lia.
  - rewrite IH; [|apply N.div_lt; lia|done|done]. simpl.
    rewrite digit_pretty_N_char by (apply N.mod_lt; lia).
    f_equal. f_equal. simpl.
    pose proof (N.div_mod x 10). lia.
Qed.

Lemma pretty_N_go_append (x : N) (s rest : string) :
  pretty_N_go x (s ++ rest) = pretty_N_go x s ++ rest.
Proof.
  revert s. induction (N.lt_wf_0 x) as [x _ IH]; intros s.
  assert (x = 0 \/ 0 < x)%N as [->|Hx] by lia.
  - by rewrite !pretty_N_go_0.
  - rewrite (pretty_N_go_step x (s ++ rest)), (pretty_N_go_step x s) by done.
    change (String (pretty_N_char (x `mod` 10)) (s ++ rest))
      with (String (pretty_N_char (x `mod` 10)) s ++ rest).
    apply (IH (x `div` 10)%N); apply N.div_lt; lia.
Qed.

Lemma pretty_N_go_head (x : N) (s : string) :
  (0 < x)%N ->
  exists a r d, pretty_N_go x s = String a r /\ Js.digit a = Some d.
Proof.
  revert s. induction (N.lt_wf_0 x) as [x _ IH]; intros s Hx.
  rewrite pretty_N_go_step by done.
  destruct (N.eq_0_gt_0_cases (x `div` 10)) as [Hq|Hq].
  - rewrite Hq, pretty_N_go_0. eexists _, _, _. split; [done|].
    apply digit_pretty_N_char, N.mod_lt. lia.
  - apply IH; [apply N.div_lt; lia|done].
Qed.

Lemma digit_is_plain (a : ascii) (d : Z) (r : string) :
  Js.digit a = Some d ->
  Js.is_white_space a = false
  /\ match String a r with
     | String "-" r' => (-1, r')
     | String "+" r' => (1, r')
     | _ => (1, String a r)
     end = (1, String a r).
Proof.
  destruct a as [[] [] [] [] [] [] [] []]; vm_compute; intros; by simplify_eq.
Qed.

Lemma digits_no_leading_digit (s : string) (acc : option Z) :
  no_leading_digit s = true -> Js.digits s acc = acc.
Proof.
  destruct s as [|a s]; simpl; [done|]. by destruct (Js.digit a).
Qed.

Lemma parseInt_digits (x : N) (rest : string) :
  (0 < x)%N ->
  no_leading_digit rest = true ->
  Js.parseInt (pretty_N_go x "" ++ rest) = Js.number_of (Z.of_N x)
  /\ Js.parseInt ("-" ++ pretty_N_go x "" ++ rest) = Js.number_of (- Z.of_N x).
Proof.
  intros Hx Hrest.
  assert (Js.digits (pretty_N_go x "" ++ rest) None = Some (Z.of_N x)) as Hdigits.
  { rewrite <- pretty_N_go_append. simpl.
    rewrite digits_pretty_N_go by done. by apply digits_no_leading_digit. }
  destruct (pretty_N_go_head x "" Hx) as (a & r & d & Hhead & Hd).
  destruct (digit_is_plain a d (r ++ rest) Hd) as [Hwhite Hsign].
  rewrite Hhead in *. unfold Js.parseInt. split.
  - change (String a r ++ rest) with (String a (r ++ rest)) in *.
    simpl Js.trimStart. rewrite Hwhite. cbv zeta. rewrite Hsign, Hdigits.
    f_equal; lia.
  - change ("-" ++ String a r ++ rest) with (String "-" (String a (r ++ rest))).
    change (String a r ++ rest) with (String a (r ++ rest)) in Hdigits.
    simpl Js.trimStart. cbv zeta. cbn iota. rewrite Hdigits. f_equal; lia.
Qed.

(** Parsing the decimal text of [n], followed by anything that does not
    start with a digit, gives the Number value for [n]. *)
Lemma parseInt_decimal (n : Z) (rest : string) :
  no_leading_digit rest = true ->
  Js.parseInt (pretty n ++ rest) = Js.number_of n.
Proof.
  intros Hrest. destruct n as [|p|p].
  - unfold Js.parseInt. change (pretty 0 ++ rest) with (String "0" rest).
    simpl Js.trimStart. cbv zeta. cbn iota. simpl Js.digits.
    by rewrite digits_no_leading_digit.
  - change (pretty (Z.pos p)) with (pretty_N_go (N.pos p) "").
    by apply parseInt_digits.
  - change (pretty (Z.neg p)) with ("-" ++ pretty_N_go (N.pos p) "").
    replace (("-" ++ pretty_N_go (N.pos p) "") ++ rest)
      with ("-" ++ pretty_N_go (N.pos p) "" ++ rest) by done.
    by apply (parseInt_digits (N.pos p)).
Qed.

(** Up to 2^53 in magnitude the Number value for an integer is the
    integer itself. *)
Lemma round53_exact (m : Z) : 0 <= m <= Js.MAX_EXACT -> Js.round53 m = m.
Proof.
  intros Hm. unfold Js.round53.
  destruct (decide (m = Js.MAX_EXACT)) as [->|Hne]; [by vm_compute|].
  assert (Z.log2 m - 52 <= 0) as Hk.
  { destruct (decide (m = 0)) as [->|Hpos]; [by vm_compute|].
    assert (Z.log2 m < 53); [|lia].
    apply Z.log2_lt_pow2; [lia|].
    change (2 ^ 53) with Js.MAX_EXACT. lia. }
  cbv zeta. by rewrite (proj2 (Z.leb_le _ _) Hk).
Qed.

Lemma number_of_exact (n : Z) : Js.exact n = true -> Js.number_of n = Js.Num n.
Proof.
  unfold Js.exact, Js.number_of. intros Hn%Z.leb_le. cbv zeta.
  rewrite round53_exact by lia.
  assert (Z.log2 (Z.abs n) <= 53) as Hlog.
  { change 53 with (Z.log2 Js.MAX_EXACT). by apply Z.log2_le_mono. }
  rewrite (proj2 (Z.ltb_lt _ _)) by lia.
  f_equal. destruct n; simpl; lia.
Qed.

Example parseInt_rounds :
  Js.parseInt "9007199254740993" = Js.Num 9007199254740992.
Proof. reflexivity. Qed.

Example parseInt_fraction : Js.parseInt (Js.toString (Js.Other "2.5")) = Js.Num 2.
Proof. reflexivity. Qed.

Example parseInt_exponent : Js.parseInt (Js.toString (Js.Other "1e+21")) = Js.Num 1.
Proof. reflexivity. Qed.

(** [parseInt] undoes [String] on the integers that are doubles:
    parsing the decimal text of [n], followed by anything that does not
    start with a digit, gives [n] back when [n] is at most 2^53 in
    magnitude. *)
Lemma parseInt_of_String (n : Z) (rest : string) :
  Js.exact n = true ->
  no_leading_digit rest = true ->
  Js.parseInt (pretty n ++ rest) = Js.Num n.
Proof. intros Hn Hrest. by rewrite parseInt_decimal, number_of_exact. Qed.

(** ** What the page offers *)

Lemma row_fires editingProductId (rows : list ApiProduct.t) c e :
  c ∈ rows ≫= Item.controls editingProductId ->
  fires c e ->
  exists p,
    p ∈ rows
    /\ ((e = Edit p /\ editingProductId <> Some (ApiProduct.id p))
        \/ e = Delete (ApiProduct.id p) (ApiProduct.category p)).
Proof.
  intros (p & Hc & Hp)%list_elem_of_bind Hfires. exists p. split; [done|].
  unfold Item.controls in Hc.
  repeat (apply elem_of_cons in Hc as [->|Hc]); [..|by apply elem_of_nil in Hc];
    destruct Hfires as [Henabled ->].
  - left. split; [done|]. simpl in Henabled. by apply bool_decide_eq_false in Henabled.
  - by right.
Qed.

(** The events the page offers, read off its controls. *)
Lemma offered_inv s e :
  offered s e ->
  match e with
  | PasswordChange _ | Login => State.authed s = false
  | Change name _ =>
      State.authed s = true
      /\ match name with
         | FormState.Title | FormState.OriginalPrice | FormState.OfferPrice
         | FormState.Description | FormState.Badge => True
         | FormState.Subcategory => True
         | FormState.AvailableQuantity =>
             FormState.category (State.form s) = "accessories"
         | FormState.Price | FormState.Category | FormState.ImageUrl => False
         end
  | CategoryChange value =>
      State.authed s = true /\ (value = "accessories" \/ value = "gifts")
  | FileChange _ | ImageUrlChange _ => State.authed s = true
  | Submit =>
      State.authed s = true
      /\ State.loading s = false /\ State.uploadingImage s = false
  | Edit p =>
      State.authed s = true
      /\ p ∈ catalog_rows (State.products s)
      /\ ApiProduct.id <$> State.editingProduct s <> Some (ApiProduct.id p)
  | CancelEdit => State.authed s = true /\ is_Some (State.editingProduct s)
  | Delete id category =>
      State.authed s = true
      /\ exists p, p ∈ catalog_rows (State.products s)
                   /\ id = ApiProduct.id p /\ category = ApiProduct.category p
  end.
Proof.
  intros (c & Hc & Hfires). unfold controls in Hc.
  destruct (State.authed s) eqn:Hauthed.
  - rewrite !elem_of_app in Hc.
    destruct Hc as [Hc|[Hc|[Hc|[Hc|[Hc|Hc]]]]].
    + destruct (State.editingProduct s) eqn:Hediting; simpl in Hc;
        [|by apply elem_of_nil in Hc].
      apply list_elem_of_singleton in Hc as ->. destruct Hfires as [_ ->]. eauto.
    + repeat (apply elem_of_cons in Hc as [->|Hc]); [..|by apply elem_of_nil in Hc];
        simpl in Hfires.
      all: try (destruct Hfires as [value ->]; done).
      all: destruct Hfires as (value & Hvalue & ->); try done.
      split; [done|].
      repeat (apply elem_of_cons in Hvalue as [->|Hvalue]); [by eauto..|].
      by apply elem_of_nil in Hvalue.
    + case_bool_decide as Hcategory; [|by apply elem_of_nil in Hc].
      apply list_elem_of_singleton in Hc as ->. by destruct Hfires as [value ->].
    + repeat (apply elem_of_cons in Hc as [->|Hc]); [..|by apply elem_of_nil in Hc];
        simpl in Hfires.
      * by destruct Hfires as [file ->].
      * by destruct Hfires as [value ->].
      * destruct Hfires as [Hidle ->]. by apply orb_false_iff in Hidle as [? ?].
    + destruct (row_fires _ _ _ _ Hc Hfires) as (p & Hp & [[-> Hne]| ->]).
      * split_and!; [done| |done]. unfold catalog_rows. apply elem_of_app. by left.
      * split; [done|]. exists p. split_and!; [|done..].
        unfold catalog_rows. apply elem_of_app. by left.
    + destruct (row_fires _ _ _ _ Hc Hfires) as (p & Hp & [[-> Hne]| ->]).
      * split_and!; [done| |done]. unfold catalog_rows. apply elem_of_app. by right.
      * split; [done|]. exists p. split_and!; [|done..].
        unfold catalog_rows. apply elem_of_app. by right.
  - repeat (apply elem_of_cons in Hc as [->|Hc]); [..|by apply elem_of_nil in Hc].
    + by destruct Hfires as [value ->].
    + by destruct Hfires as [_ ->].
Qed.

(** ** What every event keeps *)

Lemma last_catalog_snoc t x :
  last_catalog (t ++ [x])%list = note_reload (last_catalog t) x.
Proof. unfold last_catalog. by rewrite fold_left_app. Qed.

Lemma or_else_nonempty (o : option string) (d : string) :
  d <> "" -> Js.or_else o d <> "".
Proof.
  intros Hd. destruct o as [x|]; simpl; [|done].
  destruct (Js.nonempty x) eqn:E; [by apply nonempty_true|done].
Qed.

Ltac keeps_leaf :=
  repeat match goal with
    | H : forall a t, call _ _ _ _ _ _ = _ |- _ => clear H
    end;
  simpl in *; rewrite ?last_catalog_snoc; simpl;
  split_and!; intros;
  repeat match goal with
    | Ho : offered ?s ?e -> _, H : offered ?s ?e |- _ => specialize (Ho H)
    | H : _ /\ _ |- _ => destruct H
    | E : ?x = None, H : is_Some ?x |- _ => rewrite E in H
    | H : is_Some None |- _ => by destruct H
    | H : Js.nonempty _ = false |- _ => apply nonempty_false in H
    | name : FormState.field |- _ => destruct name; simpl in *
    | H : _ \/ _ |- _ => destruct H; subst
    end;
  rewrite ?lookup_insert_eq, ?bool_decide_eq_true_2 by done;
  try done; try congruence; try (by apply or_else_nonempty); try (by auto).

Lemma dispatch_keeps m e :
  let s := Machine.app m in
  let m' := (dispatch API_BASE ADMIN_PASSWORD server e m).2 in
  let s' := Machine.app m' in
  (State.loading s = false -> State.loading s' = false) /\
  (State.uploadingImage s = false -> State.uploadingImage s' = false) /\
  (State.authed s = true -> State.authed s' = true) /\
  (State.authed s = bool_decide (State.localStorage s !! "admin_authed" = Some "true") ->
   State.authed s' = bool_decide (State.localStorage s' !! "admin_authed" = Some "true")) /\
  (State.products s = default (Catalog.mk [] []) (last_catalog (Machine.transcript m)) ->
   State.products s' = default (Catalog.mk [] []) (last_catalog (Machine.transcript m'))) /\
  (offered s e ->
   (is_Some (State.imageFile s) -> FormState.imageUrl (State.form s) = "") ->
   is_Some (State.imageFile s') -> FormState.imageUrl (State.form s') = "") /\
  (offered s e ->
   FormState.category (State.form s) <> "" ->
   FormState.category (State.form s') <> "") /\
  (offered s e ->
   State.authed s = false ->
   State.authed s' = false ->
   Machine.transcript m' = Machine.transcript m
   /\ State.products s' = State.products s
   /\ State.form s' = State.form s
   /\ State.editingProduct s' = State.editingProduct s
   /\ State.imageFile s' = State.imageFile s).
Proof.
  destruct m as [s w t]. cbv zeta.
  pose proof (offered_inv s e) as Hoffered.
  remember (dispatch API_BASE ADMIN_PASSWORD server e (Machine.mk s w t)).2
    as m' eqn:Hm'.
  revert Hm'.
  destruct e; simpl in Hoffered.
  all: exec; intros ->; keeps_leaf.
Qed.

(** What holds of every machine of a session. *)
Lemma reachable_keeps m :
  reachable API_BASE ADMIN_PASSWORD server m ->
  let s := Machine.app m in
  State.loading s = false /\
  State.uploadingImage s = false /\
  State.authed s = bool_decide (State.localStorage s !! "admin_authed" = Some "true") /\
  State.products s = default (Catalog.mk [] []) (last_catalog (Machine.transcript m)) /\
  (is_Some (State.imageFile s) -> FormState.imageUrl (State.form s) = "") /\
  FormState.category (State.form s) <> "" /\
  (State.authed s = false ->
   Machine.transcript m = []
   /\ State.products s = Catalog.mk [] []
   /\ State.form s = initialForm
   /\ State.editingProduct s = None
   /\ State.imageFile s = None).
Proof.
  induction 1 as [storage w|m e Hm IH Hoffered].
  - exec; keeps_leaf.
  - destruct IH as (Hloading & Huploading & Hmarker & Hsnapshot & Hexclusive
                    & Hcategory & Hgate).
    destruct (dispatch_keeps m e) as (Kloading & Kuploading & Kauthed & Kmarker
                                      & Ksnapshot & Kexclusive & Kcategory & Kgate).
    split_and!; auto.
    intros Hout.
    destruct (State.authed (Machine.app m)) eqn:Hin.
    { rewrite Kauthed in Hout; done. }
    destruct (Kgate Hoffered eq_refl Hout) as (-> & -> & -> & -> & ->). auto.
Qed.

(** ** Sessions *)

(** X1. Before a successful login the console has sent nothing to the
    store and holds nothing: in every session, while the operator is
    not authenticated the transcript is empty, both lists are empty and
    the draft is the initial one. *)
Theorem session_gate m :
  reachable API_BASE ADMIN_PASSWORD server m ->
  State.authed (Machine.app m) = false ->
  Machine.transcript m = []
  /\ State.products (Machine.app m) = Catalog.mk [] []
  /\ State.form (Machine.app m) = initialForm
  /\ State.editingProduct (Machine.app m) = None
  /\ State.imageFile (Machine.app m) = None.
Proof. intros Hm. by apply (reachable_keeps m Hm). Qed.

(** X2. The session flag and the persisted marker always agree, and
    nothing logs the operator out: in every session [authed] holds
    exactly when the stored marker is the string true, and no event,
    offered or not, takes [authed] back to false. *)
Theorem session_marker m :
  reachable API_BASE ADMIN_PASSWORD server m ->
  (State.authed (Machine.app m) = true
   <-> State.localStorage (Machine.app m) !! "admin_authed" = Some "true")
  /\ forall e,
       State.authed (Machine.app m) = true ->
       State.authed (Machine.app (dispatch API_BASE ADMIN_PASSWORD server e m).2) = true.
Proof.
  intros Hm. destruct (reachable_keeps m Hm) as (_ & _ & Hmarker & _). split.
  - rewrite Hmarker. apply bool_decide_eq_true.
  - intros e. apply (dispatch_keeps m e).
Qed.

(** X3. Between two events no request is outstanding: in every session
    [loading] and [uploadingImage] are false, so once authenticated the
    page offers an enabled submit button, labelled Update Product while
    a product is edited and Add Product otherwise. *)
Theorem session_idle m :
  reachable API_BASE ADMIN_PASSWORD server m ->
  let s := Machine.app m in
  State.loading s = false
  /\ State.uploadingImage s = false
  /\ (State.authed s = true ->
      Button (if Js.present (State.editingProduct s)
              then "Update Product" else "Add Product") false Submit
      ∈ controls s).
Proof.
  intros Hm s. destruct (reachable_keeps m Hm) as (Hloading & Huploading & _).
  fold s in Hloading, Huploading. split_and!; [done..|].
  intros Hauthed. unfold controls, submitLabel.
  rewrite Hauthed, Hloading, Huploading. simpl.
  repeat first [rewrite elem_of_app | rewrite elem_of_cons].
  repeat first [left; reflexivity | right].
Qed.

(** X4. A selected file and a typed image URL never coexist: in every
    session, whenever a file is selected the URL field of the draft is
    empty. *)
Theorem session_file_excludes_url m :
  reachable API_BASE ADMIN_PASSWORD server m ->
  is_Some (State.imageFile (Machine.app m)) ->
  FormState.imageUrl (State.form (Machine.app m)) = "".
Proof. intros Hm. by apply (reachable_keeps m Hm). Qed.

(** X5. The category of the draft is never empty in a session, so the
    category check of submit cannot fail there: a submit from a session
    state never ends with an empty transcript and the message Category
    required. *)
Theorem session_category m :
  reachable API_BASE ADMIN_PASSWORD server m ->
  FormState.category (State.form (Machine.app m)) <> ""
  /\ forall w,
       ~ (Machine.transcript (after (handleSubmit API_BASE server) (Machine.app m) w) = []
          /\ State.error
               (Machine.app (after (handleSubmit API_BASE server) (Machine.app m) w))
             = Some category_required).
Proof.
  intros Hm. destruct (reachable_keeps m Hm) as (_ & _ & _ & _ & _ & Hcategory & _).
  split; [done|]. intros w. apply nonempty_true in Hcategory. revert Hcategory.
  generalize (Machine.app m). intros s Hcategory.
  exec; intros [Ht He]; simplify_eq/=.
  all: by destruct t.
Qed.

(** X6. The lists shown are always the answer of the last reload that
    succeeded: in every session the snapshot is the catalog of the last
    settled reload of the transcript, and the empty catalog when there
    is none. *)
Theorem session_snapshot m :
  reachable API_BASE ADMIN_PASSWORD server m ->
  State.products (Machine.app m)
  = default (Catalog.mk [] []) (last_catalog (Machine.transcript m)).
Proof. intros Hm. by apply (reachable_keeps m Hm). Qed.

(** ** Logging in and the first render *)

(** X7. A login with the shared password opens the console for good:
    the operator is authenticated, the marker is stored, so that a
    console started from that storage is authenticated too, and the
    catalog is requested exactly once; the snapshot is the answer, or
    the one found with the load message when the request fails. *)
Theorem login_opens s w :
  State.authed s = false ->
  State.password s = ADMIN_PASSWORD ->
  let m := after (dispatch API_BASE ADMIN_PASSWORD server Login) s w in
  let s' := Machine.app m in
  State.authed s' = true
  /\ State.localStorage s' !! "admin_authed" = Some "true"
  /\ State.authed (initialState (State.localStorage s')) = true
  /\ calls (Machine.transcript m) = [FetchAllProducts]
  /\ match (run (fetchAllProducts API_BASE server) s w).1 with
     | Resolved catalog => State.products s' = catalog /\ State.error s' = None
     | Rejected _ =>
         State.products s' = State.products s
         /\ State.error s' = Some "Failed to load products."
     end.
Proof.
  intros Hauthed Hpassword.
  unfold_console. simpl. rewrite Hpassword, Hauthed. tidy.
  exec_call;
    match goal with
    | H : forall a t, call _ _ _ _ _ _ = _ |- _ => rewrite (H s [])
    end;
    simpl; rewrite lookup_insert_eq; by split_and!.
Qed.

(** X8. A login with any other password changes nothing but the
    message: no request is sent, nothing is stored, and the state is
    the one found with the message Invalid password. *)
Theorem login_refused s w :
  State.password s <> ADMIN_PASSWORD ->
  let m := after (dispatch API_BASE ADMIN_PASSWORD server Login) s w in
  Machine.transcript m = []
  /\ Machine.app m = setError (Some "Invalid password") s.
Proof.
  intros Hpassword.
  unfold_console. simpl. rewrite (bool_decide_eq_false_2 _ Hpassword). tidy.
  by destruct s.
Qed.

(** X9. On the first render the catalog is requested exactly when the
    stored marker is the string true; with any other marker, or none,
    no request is sent and the login form state is left as it is. *)
Theorem first_render storage w :
  let s := initialState storage in
  let m := after (mount API_BASE server) s w in
  (storage !! "admin_authed" = Some "true" ->
   State.authed s = true /\ calls (Machine.transcript m) = [FetchAllProducts]) /\
  (storage !! "admin_authed" <> Some "true" ->
   State.authed s = false /\ Machine.transcript m = [] /\ Machine.app m = s).
Proof.
  split.
  - intros Hmarker. unfold_console. simpl.
    rewrite (bool_decide_eq_true_2 _ Hmarker). tidy. by exec_call.
  - intros Hmarker. unfold_console. simpl.
    by rewrite (bool_decide_eq_false_2 _ Hmarker).
Qed.

(** ** Submit and delete: what is sent, what is shown *)

(** X10. The title check of submit rejects exactly the titles made of
    white space only (the empty title included): for such a title, and
    for no other, submit sends nothing and shows Title required. *)
Theorem title_required_exactly s w :
  let m := after (handleSubmit API_BASE server) s w in
  all_white_space (FormState.title (State.form s)) = true
  <-> Machine.transcript m = [] /\ State.error (Machine.app m) = Some title_required.
Proof.
  cbv zeta. rewrite <- trim_empty, <- nonempty_false. unfold title_required.
  destruct (Js.nonempty (Js.trim (FormState.title (State.form s)))) eqn:Htitle.
  all: remember (after (handleSubmit API_BASE server) s w) as m eqn:Hm; revert Hm.
  all: exec; intros ->; (split; [intros Hblank|intros [Hsent Herror]]); by simplify_eq/=.
Qed.

Lemma all_but_last_settled (sent : list Exchange.t) :
  forallb settled (removelast sent) = true ->
  forall before x later,
    sent = (before ++ x :: later)%list -> later <> [] -> settled x = true.
Proof.
  intros Hsent before x later -> Hlater.
  rewrite removelast_app in Hsent by done.
  rewrite forallb_app in Hsent. apply andb_prop in Hsent as [_ Hsent].
  destruct later as [|y later]; [done|].
  simpl in Hsent. by apply andb_prop in Hsent as [Hx _].
Qed.

(** X11. The calls of one submit, in order: an upload first when a
    file is selected, then one update when a product is edited and one
    create otherwise, then one reload; each call is made only if the
    one before it succeeded, so every call of the transcript but the
    last one settled. The upload is attempted exactly when a file is
    selected and the title and category checks pass. *)
Theorem submit_call_order s w :
  let sent := Machine.transcript (after (handleSubmit API_BASE server) s w) in
  let t := calls sent in
  let mutation :=
    if Js.present (State.editingProduct s) then UpdateProduct else CreateProduct in
  t ∈ [ []; [mutation]; [mutation; FetchAllProducts];
        [UploadImage]; [UploadImage; mutation];
        [UploadImage; mutation; FetchAllProducts] ]
  /\ (forall before x later,
        sent = (before ++ x :: later)%list -> later <> [] -> settled x = true)
  /\ (UploadImage ∈ t
      <-> is_Some (State.imageFile s)
          /\ Js.trim (FormState.title (State.form s)) <> ""
          /\ FormState.category (State.form s) <> "").
Proof.
  cbv zeta. rewrite <- !nonempty_true.
  destruct (Js.nonempty (Js.trim (FormState.title (State.form s)))) eqn:Htitle,
    (Js.nonempty (FormState.category (State.form s))) eqn:Hcategory.
  all: remember (after (handleSubmit API_BASE server) s w) as m eqn:Hm; revert Hm.
  all: exec; intros ->; simpl.
  all: (split; [repeat first [rewrite elem_of_cons | left; reflexivity | right]|]).
  all: (split; [by apply all_but_last_settled|]).
  all: (split; [intros Hin|intros (Hfile & ? & ?)]).
  all: try done; try (by destruct Hfile); try (by eauto).
  all: try (by repeat (apply elem_of_cons in Hin as [?|Hin]; [done|]);
              apply elem_of_nil in Hin).
  all: try (by apply list_elem_of_here).
Qed.

(** X12. A create or update that fails costs the operator nothing but
    a message: the draft, the editing target, the selected file and the
    snapshot are what they were, no reload follows, and the message
    shown is the one of the failed call, or Failed to add product. when
    that one is empty. *)
Theorem failed_mutation_keeps_draft s w x message :
  let m := after (handleSubmit API_BASE server) s w in
  let s' := Machine.app m in
  x ∈ Machine.transcript m ->
  is_mutation x = true ->
  Exchange.outcome x = Rejected message ->
  last (Machine.transcript m) = Some x
  /\ State.form s' = State.form s
  /\ State.editingProduct s' = State.editingProduct s
  /\ State.imageFile s' = State.imageFile s
  /\ State.products s' = State.products s
  /\ State.loading s' = false
  /\ State.error s'
     = Some (if Js.nonempty message then message else "Failed to add product.").
Proof.
  cbv zeta.
  remember (after (handleSubmit API_BASE server) s w) as m eqn:Hm; revert Hm.
  exec; intros -> Hin Hmutation Hrejected; simpl in *.
  all: repeat (apply elem_of_cons in Hin as [->|Hin]); try (by apply elem_of_nil in Hin).
  all: simplify_eq/=; try done.
  all: split_and!; try done; congruence.
Qed.

(** X13. A delete that fails, for whatever reason, changes only the
    message: one call was made, no reload follows, the message is
    Failed to delete product., and everything else, the edited draft
    included, is as it was. *)
Theorem failed_delete s w id category message :
  (run (deleteProduct API_BASE server id category) s w).1 = Rejected message ->
  let m := after (handleDelete API_BASE server id category) s w in
  Machine.app m = setLoading false (setError (Some "Failed to delete product.") s)
  /\ calls (Machine.transcript m) = [DeleteProduct].
Proof.
  intros Hdelete. unfold_console. simpl in *.
  call_in Hdelete. subst r. exec_call. by destruct s.
Qed.

(** X14. No message means the work is done and shown: after a submit
    or a delete the error is empty exactly when the last call of the
    handler was a reload that succeeded. *)
Theorem no_error_iff_reloaded s w :
  let quiet (m : Machine.t World) :=
    State.error (Machine.app m) = None
    <-> exists x, last (Machine.transcript m) = Some x
                  /\ is_reload x = true /\ settled x = true in
  quiet (after (handleSubmit API_BASE server) s w)
  /\ forall id category, quiet (after (handleDelete API_BASE server id category) s w).
Proof.
  cbv zeta. split; [|intros id category].
  1: remember (after (handleSubmit API_BASE server) s w) as m eqn:Hm; revert Hm.
  2: remember (after (handleDelete API_BASE server id category) s w) as m eqn:Hm;
       revert Hm.
  all: exec; intros ->; simpl.
  all: (split; [intros Herror|intros (x & Hlast & Hreload & Hsettled)]).
  all: simplify_eq/=; try done; try (by eexists).
Qed.

(** ** What the store and the image host answer *)

Lemma call_answer {T R} name request
    (endpoint : Request.t -> World -> World * Outcome (Response.t T))
    (settle : Response.t T -> Outcome R) (data : R -> Data) (w : World) fetched :
  (endpoint request w).2 = fetched ->
  exists w', forall a t,
    call name request endpoint settle data (Machine.mk a w t)
    = (match fetched with
       | Resolved res => settle res
       | Rejected e => Rejected e
       end,
       Machine.mk a w'
         (t ++ [Exchange.mk name request
                  (omap_outcome data
                     match fetched with
                     | Resolved res => settle res
                     | Rejected e => Rejected e
                     end)])).
Proof.
  unfold call. simpl. destruct (endpoint request w) as [w' fetched'].
  simpl. intros ->. by exists w'.
Qed.

(** X15. When the store answers a create or an update with a status
    that is not ok, the operator is shown HTTP followed by that status,
    and when the request itself fails, the message of the failure (or
    Failed to add product. when it is empty); no reload follows. Stated
    for a draft that passes the checks with a typed URL or an edited
    product, and no file. *)
Theorem refused_mutation_shows_status s w :
  Js.trim (FormState.title (State.form s)) <> "" ->
  FormState.category (State.form s) <> "" ->
  State.imageFile s = None ->
  FormState.imageUrl (State.form s) <> "" \/ is_Some (State.editingProduct s) ->
  let answer request :=
    match State.editingProduct s with
    | Some _ => (Server.update_product server request w).2
    | None => (Server.create_product server request w).2
    end in
  let m := after (handleSubmit API_BASE server) s w in
  (forall status body,
     (forall request, answer request = Resolved (Response.mk false status body)) ->
     State.error (Machine.app m) = Some ("HTTP " ++ pretty status)
     /\ length (Machine.transcript m) = 1%nat) /\
  (forall message,
     (forall request, answer request = Rejected message) ->
     State.error (Machine.app m)
     = Some (if Js.nonempty message then message else "Failed to add product.")
     /\ length (Machine.transcript m) = 1%nat).
Proof.
  intros Htitle%nonempty_true Hcategory%nonempty_true Hfile Himage. cbv zeta.
  split; [intros status body Hanswer|intros message Hanswer].
  all: unfold_console; simpl; rewrite Htitle, Hcategory, Hfile; simpl.
  all: destruct (State.editingProduct s) as [product|] eqn:Hediting; simpl.
  all: rewrite ?andb_false_r, ?andb_true_r; simpl.
  all: try (destruct Himage as [Hurl%nonempty_true|[? [=]]]; rewrite Hurl; simpl).
  all: match goal with
       | |- context [call ?n ?rq ?ep ?st ?d (Machine.mk ?a ?w ?t)] =>
           destruct (call_answer n rq ep st d w _ (Hanswer rq)) as [w' ->]
       end; simpl.
  all: try done.
  all: by destruct (Js.nonempty message).
Qed.

(** X16. What the operator is shown when the image host refuses a
    file: Image upload failed: followed by the error of the answer's
    body, or by HTTP and the status when the body names none, or by the
    parse failure when the body is not JSON. Only the upload was
    called, and the draft and the selected file are kept. *)
Theorem upload_refusal_message s w file status body :
  Js.trim (FormState.title (State.form s)) <> "" ->
  FormState.category (State.form s) <> "" ->
  State.imageFile s = Some file ->
  (Server.upload server
     (Request.mk POST (API_BASE ++ "/upload") (FormData file)) w).2
  = Resolved (Response.mk false status body) ->
  let m := after (handleSubmit API_BASE server) s w in
  let s' := Machine.app m in
  State.error s'
  = Some ("Image upload failed: " ++
          match body with
          | Resolved answer =>
              if Js.nonempty (UploadBody.error answer) then UploadBody.error answer
              else "HTTP " ++ pretty status
          | Rejected message => message
          end)
  /\ calls (Machine.transcript m) = [UploadImage]
  /\ State.form s' = State.form s
  /\ State.imageFile s' = Some file
  /\ State.uploadingImage s' = false
  /\ State.loading s' = false.
Proof.
  intros Htitle%nonempty_true Hcategory%nonempty_true Hfile Hanswer. cbv zeta.
  unfold_console; simpl; rewrite Htitle, Hcategory, Hfile; simpl.
  match goal with
  | |- context [call ?n ?rq ?ep ?st ?d (Machine.mk ?a ?w ?t)] =>
      destruct (call_answer n rq ep st d w _ Hanswer) as [w' ->]
  end; simpl.
  destruct body as [answer|message]; simpl; by split_and!.
Qed.

(** ** The payload and the round trips of the draft *)

Lemma String_nonempty (n : Z) (rest : string) : Js.nonempty (pretty n ++ rest) = true.
Proof.
  apply nonempty_true. destruct n as [|p|p]; [done| |done].
  change (pretty (Z.pos p)) with (pretty_N_go (N.pos p) "").
  destruct (pretty_N_go_head (N.pos p) "") as (a & r & d & -> & _); done.
Qed.

Lemma append_empty_r (s : string) : s ++ "" = s.
Proof. induction s as [|a s IH]; [done|]. change (String a (s ++ "") = String a s). by rewrite IH. Qed.

Lemma trim_nonempty (s : string) : Js.trim s <> "" -> Js.nonempty s = true.
Proof. intros Hs. apply nonempty_true. by intros ->. Qed.

Lemma text_or_else (o : option string) :
  (if Js.nonempty (Js.or_else o "") then Some (Js.Str (Js.or_else o "")) else None)
  = Js.Str <$> Js.text o.
Proof.
  destruct o as [x|]; simpl; [|done].
  destruct (Js.nonempty x) eqn:E; simpl; by rewrite ?E.
Qed.

(** A submit of a draft whose title is blank only sets the message. *)
Lemma submit_blank (m : Machine.t World) :
  Js.trim (FormState.title (State.form (Machine.app m))) = "" ->
  (handleSubmit API_BASE server m).2
  = Machine.mk (setLoading false (setError (Some title_required) (Machine.app m)))
      (Machine.world m) (Machine.transcript m).
Proof.
  intros Htitle%nonempty_false. destruct m as [s w t].
  unfold_console. simpl in *. rewrite Htitle. simpl. by destruct s.
Qed.

(** X17. Every object sent by a create or an update has the title,
    description, price, category and imageUrl keys bound to strings,
    nothing outside the ten keys of the form (no id and no legacy
    image key in particular), and the title as typed, not trimmed. *)
Theorem payload_shape s w p :
  p ∈ sent_payloads (Machine.transcript (after (handleSubmit API_BASE server) s w)) ->
  (forall k, is_Some (p !! k) ->
     k ∈ ["title"; "description"; "price"; "originalPrice"; "offerPrice"; "category";
          "subcategory"; "badge"; "imageUrl"; "availableQuantity"]) /\
  (forall k, k ∈ ["title"; "description"; "price"; "category"; "imageUrl"] ->
     exists v, p !! k = Some (Js.Str v)) /\
  p !! "title" = Some (Js.Str (FormState.title (State.form s))).
Proof.
  intros [u ->]%sent_payload_inv. split_and!.
  - intros k Hk.
    destruct (decide (k ∈ ["title"; "description"; "price"; "originalPrice";
                           "offerPrice"; "category"; "subcategory"; "badge";
                           "imageUrl"; "availableQuantity"])) as [|Hother]; [done|].
    rewrite (productData_other _ _ _ Hother) in Hk. by destruct Hk.
  - intros k Hk.
    repeat (apply elem_of_cons in Hk as [->|Hk]); [..|by apply elem_of_nil in Hk].
    + rewrite productData_title. by eexists.
    + rewrite productData_description. by eexists.
    + rewrite productData_price. by eexists.
    + rewrite productData_category. by eexists.
    + rewrite productData_imageUrl. by eexists.
  - apply productData_title.
Qed.

(** X18. A quantity typed as the decimal text of an integer of
    magnitude at most 2^53 (the integers that are doubles), with
    anything after it that does not start with a digit, is sent as that
    integer: for an accessories draft whose quantity field is such a
    text, every payload binds availableQuantity to the number [n]. *)
Theorem quantity_sent_as_integer s w p (n : Z) (rest : string) :
  p ∈ sent_payloads (Machine.transcript (after (handleSubmit API_BASE server) s w)) ->
  FormState.category (State.form s) = "accessories" ->
  FormState.availableQuantity (State.form s) = pretty n ++ rest ->
  no_leading_digit rest = true ->
  Z.abs n <= Js.MAX_EXACT ->
  p !! "availableQuantity" = Some (Js.Num n).
Proof.
  intros [u ->]%sent_payload_inv Hcategory Hquantity Hrest Hn%Z.leb_le.
  rewrite productData_availableQuantity, Hcategory, Hquantity, String_nonempty.
  simpl. by rewrite parseInt_of_String.
Qed.

(** X19. Opening a product and submitting it unchanged sends it back
    as it is: one update addressed to its identifier, with its category
    (accessories when it has none) in the address, whose payload has
    its title, description and category, its image reference under
    imageUrl (the legacy one when that is all it has), each optional
    text exactly when the product has a non-empty one, and as price its
    legacy price or else its original price. When the category is
    accessories its quantity is sent as the same number if it is an
    integer of magnitude at most 2^53; for any other Number the payload
    has what [parseInt] reads in its printed form (2 for 2.5, 1 for
    1e+21). *)
Theorem edit_then_submit s w product :
  Js.trim (ApiProduct.title product) <> "" ->
  let m := (handleSubmit API_BASE server (after (handleEdit product) s w)).2 in
  let category := Js.or_else (ApiProduct.category product) "accessories" in
  exists x o rest,
    Machine.transcript m = x :: rest
    /\ Exchange.api x = UpdateProduct
    /\ Exchange.request x
       = Request.mk PUT
           (API_BASE ++ "/products/" ++ ApiProduct.id product ++ "?category=" ++ category)
           (Json o)
    /\ o !! "title" = Some (Js.Str (ApiProduct.title product))
    /\ o !! "description"
       = Some (Js.Str (Js.or_else (ApiProduct.description product) ""))
    /\ o !! "category" = Some (Js.Str category)
    /\ o !! "imageUrl" = Some (Js.Str (existing_image product))
    /\ o !! "originalPrice" = Js.Str <$> Js.text (ApiProduct.originalPrice product)
    /\ o !! "offerPrice" = Js.Str <$> Js.text (ApiProduct.offerPrice product)
    /\ o !! "subcategory" = Js.Str <$> Js.text (ApiProduct.subcategory product)
    /\ o !! "badge" = Js.Str <$> Js.text (ApiProduct.badge product)
    /\ o !! "availableQuantity"
       = (if bool_decide (category = "accessories")
          then match ApiProduct.availableQuantity product with
               | Some (Js.Int n _) => Some (Js.Num n)
               | Some (Js.Other printed) =>
                   if Js.nonempty printed then Some (Js.parseInt printed) else None
               | None => None
               end
          else None)
    /\ o !! "price"
       = Some (Js.Str (Js.or_else (ApiProduct.price product)
                         (Js.or_else (ApiProduct.originalPrice product) ""))).
Proof.
  intros Htrim. pose proof (trim_nonempty _ Htrim) as Htitle. cbv zeta.
  assert (Js.nonempty (Js.or_else (ApiProduct.category product) "accessories") = true)
    as Hcategory by (by apply nonempty_true, or_else_nonempty).
  unfold_console. simpl. rewrite Htitle. simpl.
  apply nonempty_true in Htrim.
  destruct (State.authed s) eqn:Hauthed; simpl.
  all: rewrite Htrim, Hcategory; simpl.
  all: rewrite ?andb_false_r, ?andb_true_r; simpl.
  all: unfold existing_image.
  all: destruct (Js.nonempty (Js.or_else (ApiProduct.imageUrl product)
                                (Js.or_else (ApiProduct.image product) "")));
    simpl.
  all: exec_call.
  all: try exec_call.
  all: eexists _, _, _; do 3 (split; [reflexivity|]).
  all: rewrite productData_title, productData_description, productData_category,
         productData_imageUrl, productData_originalPrice, productData_offerPrice,
         productData_subcategory, productData_badge, productData_availableQuantity,
         productData_price; simpl.
  all: rewrite !text_or_else.
  all: split_and!; try done.
  all: try (destruct (ApiProduct.availableQuantity product) as [[n Hn|printed]|];
            simpl;
            [ rewrite <- (append_empty_r (pretty n)), String_nonempty,
                parseInt_of_String by (done || by apply Is_true_eq_true)
            | destruct (Js.nonempty printed)
            | change (Js.nonempty "") with false ];
            by rewrite ?andb_true_r, ?andb_false_r; case_bool_decide).
  all: destruct (ApiProduct.price product) as [x|]; simpl; try done.
  all: destruct (Js.nonempty x) eqn:Hx; simpl; by rewrite ?Hx.
Qed.

(** X20. After a submit that stored the product, submitting again
    sends nothing: the draft was reset, so the second submit stops at
    the title check and only shows Title required. *)
Theorem resubmit_sends_nothing s w x :
  let m1 := after (handleSubmit API_BASE server) s w in
  let m2 := (handleSubmit API_BASE server m1).2 in
  x ∈ mutations (Machine.transcript m1) ->
  settled x = true ->
  Machine.transcript m2 = Machine.transcript m1
  /\ State.error (Machine.app m2) = Some title_required
  /\ State.products (Machine.app m2) = State.products (Machine.app m1)
  /\ State.form (Machine.app m2) = initialForm.
Proof.
  intros m1 m2 Hx Hsettled.
  assert (State.form (Machine.app m1) = initialForm) as Hform.
  { revert Hx. subst m1 m2.
    remember (after (handleSubmit API_BASE server) s w) as m eqn:Hm. revert Hm.
    exec; intros -> Hx; simpl in *; try done.
    all: repeat (apply elem_of_cons in Hx as [->|Hx]);
      try (by apply elem_of_nil in Hx); done. }
  subst m2. rewrite submit_blank by (by rewrite Hform). simpl. by rewrite Hform.
Qed.

(** X21. Cancel discards an edit completely and silently: opening a
    product and cancelling leaves the state that cancelling alone
    leaves, with the initial draft, no target and no file; nothing is
    sent, and the snapshot and the message are untouched. *)
Theorem cancel_discards_edit s w product :
  let m := (handleCancelEdit (after (handleEdit product) s w)).2 in
  m = after (handleCancelEdit (World:=World)) s w
  /\ State.form (Machine.app m) = initialForm
  /\ State.editingProduct (Machine.app m) = None
  /\ State.imageFile (Machine.app m) = None
  /\ State.products (Machine.app m) = State.products s
  /\ State.error (Machine.app m) = State.error s
  /\ Machine.transcript m = [].
Proof.
  unfold after, run, handleCancelEdit, handleEdit, resetFileInput, mbind, M_bind,
    bind, update.
  simpl. destruct (State.authed s) eqn:Hauthed; simpl; rewrite ?Hauthed; simpl.
  all: by split_and!.
Qed.

(** ** The product lists *)

(** X22. Only listed products can be edited or deleted: the page
    offers Edit for a product exactly when the operator is
    authenticated, the product is in one of the two lists and it is not
    the one being edited; it offers Delete exactly for the identifier
    of a listed product, together with the category the list has for
    that product. *)
Theorem listed_products_only s :
  (forall p,
     offered s (Edit p)
     <-> State.authed s = true
         /\ p ∈ catalog_rows (State.products s)
         /\ ApiProduct.id <$> State.editingProduct s <> Some (ApiProduct.id p)) /\
  (forall id category,
     offered s (Delete id category)
     <-> State.authed s = true
         /\ exists p, p ∈ catalog_rows (State.products s)
                      /\ id = ApiProduct.id p /\ category = ApiProduct.category p).
Proof.
  split; [intros p|intros id category]; (split; [apply offered_inv|]).
  - intros (Hauthed & Hp & Hediting).
    exists (Button "Edit" false (Edit p)). split; [|done].
    unfold controls. rewrite Hauthed, !elem_of_app, !list_elem_of_bind.
    apply elem_of_app in Hp as [Hp|Hp].
    + do 4 right. left. exists p. split; [|done]. unfold Item.controls.
      rewrite (bool_decide_eq_false_2 _ Hediting). apply list_elem_of_here.
    + do 5 right. exists p. split; [|done]. unfold Item.controls.
      rewrite (bool_decide_eq_false_2 _ Hediting). apply list_elem_of_here.
  - intros (Hauthed & p & Hp & -> & ->).
    exists (Button "Delete" false (Delete (ApiProduct.id p) (ApiProduct.category p))).
    split; [|done].
    unfold controls. rewrite Hauthed, !elem_of_app, !list_elem_of_bind.
    apply elem_of_app in Hp as [Hp|Hp].
    + do 4 right. left. exists p. split; [|done]. unfold Item.controls.
      apply elem_of_cons. right. apply list_elem_of_here.
    + do 5 right. exists p. split; [|done]. unfold Item.controls.
      apply elem_of_cons. right. apply list_elem_of_here.
Qed.

(** X23. The price line of a list item never shows an empty amount:
    it is the offer price when the product has a non-empty one (with
    the original price struck through beside it when that is non-empty
    too), else the original price when non-empty, else the legacy price
    when non-empty, else N/A. *)
Theorem price_line_never_empty p :
  match Item.price p with
  | Item.Offer offerPrice struck =>
      Js.text (ApiProduct.offerPrice p) = Some offerPrice
      /\ struck = Js.text (ApiProduct.originalPrice p)
      /\ offerPrice <> "" /\ struck <> Some ""
  | Item.Original originalPrice =>
      Js.text (ApiProduct.offerPrice p) = None
      /\ Js.text (ApiProduct.originalPrice p) = Some originalPrice
      /\ originalPrice <> ""
  | Item.Legacy text =>
      Js.text (ApiProduct.offerPrice p) = None
      /\ Js.text (ApiProduct.originalPrice p) = None
      /\ text = default "N/A" (Js.text (ApiProduct.price p))
      /\ text <> ""
  end.
Proof.
  unfold Item.price.
  destruct (ApiProduct.offerPrice p) as [o|]; simpl;
    [destruct (Js.nonempty o) eqn:Ho; simpl; rewrite ?Ho; simpl|];
    change (Js.nonempty "") with false; cbn iota.
  all: destruct (ApiProduct.originalPrice p) as [r|]; simpl;
    [destruct (Js.nonempty r) eqn:Hr; simpl; rewrite ?Hr; simpl|];
    change (Js.nonempty "") with false; cbn iota.
  all: try (destruct (ApiProduct.price p) as [l|]; simpl;
    [destruct (Js.nonempty l) eqn:Hl; simpl|]).
  all: split_and!; try done.
  all: try (by apply nonempty_true).
  all: by intros [= ->].
Qed.

(** X24. A delete raised from the page is addressed to a listed
    product: the one request it sends first is a DELETE to the products
    path of the identifier of a product in one of the two lists, with
    that product's category as the category parameter when it has a
    non-empty one and no parameter otherwise, and no body. *)
Theorem delete_addresses_listed_product s w id category :
  offered s (Delete id category) ->
  exists p x rest,
    p ∈ catalog_rows (State.products s)
    /\ Machine.transcript
         (after (dispatch API_BASE ADMIN_PASSWORD server (Delete id category)) s w)
       = x :: rest
    /\ Exchange.api x = DeleteProduct
    /\ Exchange.request x
       = Request.mk DELETE
           (API_BASE ++ "/products/" ++ ApiProduct.id p ++
              match Js.text (ApiProduct.category p) with
              | Some c => "?category=" ++ c
              | None => ""
              end)
           NoBody.
Proof.
  intros Hoffered. apply offered_inv in Hoffered. simpl in Hoffered.
  destruct Hoffered as (_ & p & Hp & -> & ->). exists p.
  assert (match ApiProduct.category p with
          | Some c => if Js.nonempty c then "?category=" ++ c else ""
          | None => ""
          end
          = match Js.text (ApiProduct.category p) with
            | Some c => "?category=" ++ c
            | None => ""
            end) as <-.
  { destruct (ApiProduct.category p) as [c|]; simpl; [|done].
    by destruct (Js.nonempty c). }
  remember (after (dispatch API_BASE ADMIN_PASSWORD server
                     (Delete (ApiProduct.id p) (ApiProduct.category p))) s w)
    as m eqn:Hm.
  revert Hm. exec; intros ->; simpl; by eexists _, _.
Qed.

(** X25. Opening a listed product puts the page in update mode: the
    product is the editing target, Cancel is offered, the submit button
    reads Update Product, and Edit is no longer offered for that
    product; nothing is sent and the lists are unchanged. *)
Theorem edit_opens_update_mode s w p :
  offered s (Edit p) ->
  let m := after (dispatch API_BASE ADMIN_PASSWORD server (Edit p)) s w in
  let s' := Machine.app m in
  State.editingProduct s' = Some p
  /\ offered s' CancelEdit
  /\ ~ offered s' (Edit p)
  /\ (State.loading s = false -> State.uploadingImage s = false ->
      submitLabel s' = "Update Product")
  /\ State.products s' = State.products s
  /\ Machine.transcript m = [].
Proof.
  intros Hoffered. apply offered_inv in Hoffered. simpl in Hoffered.
  destruct Hoffered as (Hauthed & _). cbv zeta.
  unfold_console. simpl. rewrite Hauthed. simpl. rewrite ?Hauthed. tidy.
  split_and!; try done.
  - exists (Button "Cancel" false CancelEdit). split; [|done].
    unfold controls. simpl. rewrite Hauthed. apply list_elem_of_here.
  - intros Hagain. apply offered_inv in Hagain. simpl in Hagain.
    destruct Hagain as (_ & _ & Hediting). by apply Hediting.
  - intros Hloading Huploading. unfold submitLabel. simpl.
    by rewrite Hloading, Huploading.
Qed.

End Properties.

(** ** The properties on the sample worlds *)

Lemma ring_submit_sends :
  sent_payloads
    (Machine.transcript
       (after (handleSubmit Sample.base Sample.healthy) Sample.drafting_ring tt))
  = [Sample.ring_payload].
Proof. reflexivity. Defined.

Lemma photo_submit_sends :
  sent_payloads
    (Machine.transcript
       (after (handleSubmit Sample.base Sample.healthy) Sample.with_photo tt))
  = [Sample.photo_payload].
Proof. reflexivity. Defined.

Lemma stocked_submit_sends :
  sent_payloads
    (Machine.transcript
       (after (handleSubmit Sample.base Sample.healthy) Sample.stocked_ring tt))
  = [Sample.stocked_payload].
Proof. reflexivity. Defined.

Lemma sent_alone (p : gmap string Js.Value) t :
  sent_payloads t = [p] -> p ∈ sent_payloads t.
Proof. intros ->. apply list_elem_of_here. Defined.

(** C1, as stated, fails: the ring draft has an empty description, and
    the payload of its create binds description to the empty string. *)
Lemma C1_blank_description_is_sent :
  FormState.description (State.form Sample.drafting_ring) = "" /\
  exists p,
    p ∈ sent_payloads
          (Machine.transcript
             (after (handleSubmit Sample.base Sample.healthy) Sample.drafting_ring tt))
    /\ p !! "description" = Some (Js.Str "").
Proof.
  split; [reflexivity|]. exists Sample.ring_payload. split.
  - apply sent_alone, ring_submit_sends.
  - reflexivity.
Qed.

Lemma C1_optional_blanks_witness :
  Sample.ring_payload !! "offerPrice" = None
  /\ Sample.ring_payload !! "badge" = None
  /\ Sample.ring_payload !! "description" = Some (Js.Str "").
Proof.
  pose proof (C1_optional_blanks_are_dropped Sample.base Sample.healthy
                Sample.drafting_ring tt Sample.ring_payload
                (sent_alone _ _ ring_submit_sends))
    as (_ & Hoffer & _ & Hbadge & _ & _ & Hdescription & _).
  split_and!; [apply Hoffer|apply Hbadge|apply Hdescription]; reflexivity.
Defined.

Lemma C2_image_precedence_witness :
  (exists u,
     (run (uploadImage Sample.base Sample.healthy Sample.photo) Sample.with_photo tt).1
       = Resolved u
     /\ Sample.photo_payload !! "imageUrl" = Some (Js.Str u))
  /\ Sample.ring_payload !! "imageUrl" = Some (Js.Str "https://img.example/ring.png")
  /\ Machine.transcript
       (after (handleSubmit Sample.base Sample.healthy) Sample.no_image tt) = []
  /\ exists p,
       sent_payloads
         (Machine.transcript
            (after (handleSubmit Sample.base Sample.healthy) Sample.with_photo tt))
       = [p].
Proof.
  destruct (C2_image_precedence Sample.base Sample.healthy Sample.with_photo tt)
    as (Hfile & _ & _ & _ & Hsends & _).
  destruct (C2_image_precedence Sample.base Sample.healthy Sample.drafting_ring tt)
    as (_ & Htyped & _).
  destruct (C2_image_precedence Sample.base Sample.healthy Sample.no_image tt)
    as (_ & _ & _ & Hnone & _).
  split_and!.
  - apply (Hfile Sample.photo_payload Sample.photo);
      [apply sent_alone, photo_submit_sends|reflexivity].
  - apply (Htyped Sample.ring_payload);
      [apply sent_alone, ring_submit_sends|reflexivity|discriminate].
  - apply Hnone; reflexivity.
  - apply Hsends; [vm_compute; discriminate|discriminate|].
    exists Sample.hosted. split; [reflexivity|left; discriminate].
Defined.

(** An upload that settles with an empty URL does not count as an image
    on create: the presence check rejects the draft after the upload
    call, and no create is sent. *)
Lemma empty_upload_url_is_rejected :
  map Exchange.api
    (Machine.transcript
       (after (handleSubmit Sample.base Sample.blank_upload) Sample.with_photo tt))
  = [UploadImage]
  /\ State.error
       (Machine.app
          (after (handleSubmit Sample.base Sample.blank_upload) Sample.with_photo tt))
     = Some image_required.
Proof. split; reflexivity. Qed.

(** C3, as stated, fails in two ways. A title made of one space is not
    empty, the category is valid and a URL is typed, yet the submit
    sends nothing and asks for a title. And when the hamper, a product
    of category gifts, is edited and moved to accessories with the
    category select, the one update the submit sends is scoped to the
    category of the draft, not to the category of the product. *)
Lemma C3_blank_title_and_moved_category :
  (FormState.title (State.form Sample.blank_title) <> "" /\
   FormState.category (State.form Sample.blank_title) ∈ ["accessories"; "gifts"] /\
   resolvable Sample.base Sample.healthy Sample.blank_title tt /\
   Machine.transcript
     (after (handleSubmit Sample.base Sample.healthy) Sample.blank_title tt) = [] /\
   State.error
     (Machine.app (after (handleSubmit Sample.base Sample.healthy) Sample.blank_title tt))
   = Some "Title required") /\
  (State.editingProduct Sample.moved_hamper = Some Sample.hamper /\
   ApiProduct.category Sample.hamper = Some "gifts" /\
   FormState.title (State.form Sample.moved_hamper) = "Hamper" /\
   FormState.category (State.form Sample.moved_hamper) = "accessories" /\
   resolvable Sample.base Sample.healthy Sample.moved_hamper tt /\
   map (fun x => (Exchange.api x, Request.url (Exchange.request x)))
     (mutations
        (Machine.transcript
           (after (handleSubmit Sample.base Sample.healthy) Sample.moved_hamper tt)))
   = [(UpdateProduct, "http://localhost:4000/products/p2?category=accessories")]).
Proof.
  split; split_and!; try reflexivity.
  - discriminate.
  - apply list_elem_of_here.
  - left. discriminate.
  - right. by eexists.
Qed.

Lemma C3_one_mutation_witness :
  length
    (mutations
       (Machine.transcript
          (after (handleSubmit Sample.base Sample.healthy) Sample.drafting_ring tt)))
  = 1%nat.
Proof.
  destruct (C3_one_mutation_then_reset Sample.base Sample.healthy Sample.drafting_ring tt)
    as (x & p & Hone & _).
  - vm_compute. discriminate.
  - apply list_elem_of_here.
  - left. discriminate.
  - rewrite Hone. reflexivity.
Defined.

Lemma C4_reload_witness :
  (exists g,
     [Exchange.mk FetchAllProducts
        (Request.mk GET "http://localhost:4000/products" NoBody)
        (Resolved (DCatalog Sample.catalog))] = [g]
     /\ is_reload g = true)
  /\ State.products
       (Machine.app
          (after (dispatch Sample.base Sample.secret Sample.store_down Submit)
             Sample.drafting_ring tt))
     = State.products Sample.drafting_ring.
Proof.
  destruct (C4_snapshot_only_replaced_by_reload Sample.base Sample.secret Sample.healthy
              Sample.drafting_ring tt Submit) as (_ & _ & Hfollow & _).
  destruct (C4_snapshot_only_replaced_by_reload Sample.base Sample.secret Sample.store_down
              Sample.drafting_ring tt Submit) as (_ & _ & _ & Hfailed).
  split.
  - apply (Hfollow []
             (Exchange.mk CreateProduct
                (Request.mk POST "http://localhost:4000/products"
                   (Json Sample.ring_payload))
                (Resolved (DProduct Sample.ring))));
      reflexivity.
  - apply (Hfailed
             (Exchange.mk CreateProduct
                (Request.mk POST "http://localhost:4000/products"
                   (Json Sample.ring_payload))
                (Rejected "HTTP 500")));
      [apply list_elem_of_here|reflexivity|reflexivity].
Defined.

Lemma C5_legacy_price_witness :
  Sample.ring_payload !! "price" = Some (Js.Str "500")
  /\ exists p,
       sent_payloads
         (Machine.transcript
            (after (handleSubmit Sample.base Sample.healthy) Sample.drafting_ring tt))
       = [p]
       /\ p !! "offerPrice" = None
       /\ p !! "badge" = None
       /\ p !! "subcategory" = None
       /\ p !! "availableQuantity" = None
       /\ p !! "price" = Some (Js.Str "500").
Proof.
  destruct (C5_legacy_price_backfilled Sample.base Sample.healthy Sample.drafting_ring tt)
    as (Hprice & Hscenario).
  split.
  - apply (Hprice Sample.ring_payload);
      [apply sent_alone, ring_submit_sends|reflexivity|discriminate].
  - apply (Hscenario "https://img.example/ring.png");
      [discriminate|reflexivity..].
Defined.

Lemma C6_quantity_witness :
  Sample.stocked_payload !! "availableQuantity" = Some (Js.Num 3).
Proof.
  destruct (C6_quantity_only_for_accessories Sample.base Sample.healthy
              Sample.stocked_ring tt Sample.stocked_payload
              (sent_alone _ _ stocked_submit_sends))
    as (_ & Hvalue & _).
  apply Hvalue; [reflexivity|discriminate].
Defined.

Lemma C7_failed_submit_witness :
  Machine.transcript
    (after (handleSubmit Sample.base Sample.healthy) Sample.blank_title tt) = []
  /\ Machine.transcript
       (after (handleSubmit Sample.base Sample.healthy) Sample.no_category tt) = []
  /\ Machine.transcript
       (after (handleSubmit Sample.base Sample.healthy) Sample.no_image tt) = []
  /\ State.error
       (Machine.app
          (after (handleSubmit Sample.base Sample.upload_down) Sample.with_photo tt))
     = Some "Image upload failed: disk full".
Proof.
  destruct (C7_failed_submit_sends_no_mutation Sample.base Sample.healthy
              Sample.blank_title tt) as (Htitle & _).
  destruct (C7_failed_submit_sends_no_mutation Sample.base Sample.healthy
              Sample.no_category tt) as (_ & Hcategory & _).
  destruct (C7_failed_submit_sends_no_mutation Sample.base Sample.healthy
              Sample.no_image tt) as (_ & _ & Himage & _).
  destruct (C7_failed_submit_sends_no_mutation Sample.base Sample.upload_down
              Sample.with_photo tt) as (_ & _ & _ & Hupload).
  split_and!.
  - apply Htitle. reflexivity.
  - apply Hcategory; [vm_compute; discriminate|reflexivity].
  - apply Himage; [vm_compute; discriminate|discriminate|reflexivity..].
  - destruct (Hupload Sample.photo "disk full") as (_ & _ & _ & Hwrapped);
      [reflexivity..|].
    apply Hwrapped; [vm_compute; discriminate|discriminate].
Defined.

(** C9 fails on the code when Edit is clicked while the DELETE is in
    flight. The console lists the sample catalog and edits nothing.
    Delete is clicked on the ring; before the store answers, Edit is
    clicked on the ring, which the page still offers; the store then
    deletes the ring, and the reload no longer lists it. The handler
    resumes with the [editingProduct] of the render in which Delete was
    clicked, which is null, so it does not reset the draft: the edit
    target is still the deleted ring, the form still holds it, and the
    next submit sends an update addressed to its identifier. *)
Theorem C9_edit_during_delete_keeps_the_deleted_target :
  let clicked :=
    after (handleDelete_clicked (World:=Catalog.t)) Sample.listing Sample.catalog in
  let m :=
    after (handleDelete_during Sample.base Sample.secret Sample.dropping
             [Edit Sample.ring] "p1" (Some "accessories"))
      Sample.listing Sample.catalog in
  State.editingProduct Sample.listing = None
  /\ offered (Machine.app clicked) (Edit Sample.ring)
  /\ map (fun x => (Exchange.api x, settled x)) (Machine.transcript m)
     = [(DeleteProduct, true); (FetchAllProducts, true)]
  /\ (Sample.ring ∉ catalog_rows (State.products (Machine.app m)))
  /\ State.editingProduct (Machine.app m) = Some Sample.ring
  /\ FormState.title (State.form (Machine.app m)) = "Ring"
  /\ map (fun x => (Exchange.api x, Request.url (Exchange.request x)))
       (mutations
          (Machine.transcript
             (after (handleSubmit Sample.base Sample.dropping)
                (Machine.app m) (Machine.world m))))
     = [(UpdateProduct, "http://localhost:4000/products/p1?category=accessories")].
Proof.
  cbv zeta. split_and!; try reflexivity.
  - exists (Button "Edit" false (Edit Sample.ring)). split; [|done].
    repeat first [apply list_elem_of_here | apply list_elem_of_further].
  - intros Hlisted. apply list_elem_of_singleton in Hlisted. discriminate Hlisted.
Qed.

Lemma delete_resets_witness :
  State.form
    (Machine.app
       (after (handleDelete Sample.base Sample.healthy "p2" (Some "gifts"))
          Sample.editing_hamper tt))
  = initialForm.
Proof.
  destruct (delete_resets_the_edited_draft Sample.base Sample.healthy
              Sample.editing_hamper tt "p2" (Some "gifts")) as (Hreset & _).
  apply (Hreset Sample.hamper Sample.ring); reflexivity.
Defined.

Lemma C10_legacy_image_witness :
  exists x p,
    mutations
      (Machine.transcript
         (after (handleSubmit Sample.base Sample.healthy) Sample.editing_hamper tt))
    = [x]
    /\ Exchange.api x = UpdateProduct
    /\ payload_of x = Some p
    /\ p !! "imageUrl" = Some (Js.Str "https://img.example/legacy.png")
    /\ p !! "image" = None.
Proof.
  destruct (C10_legacy_image_sent_as_imageUrl Sample.base Sample.healthy
              Sample.editing_hamper tt) as (_ & Hlegacy & _).
  apply (Hlegacy Sample.hamper "https://img.example/legacy.png");
    [reflexivity|left; reflexivity|reflexivity|discriminate|reflexivity
    |right; reflexivity|vm_compute; discriminate|discriminate].
Defined.

(** ** Sessions and answers on the sample worlds *)

Lemma alone {A} (x : A) (l : list A) : l = [x] -> x ∈ l.
Proof. intros ->. apply list_elem_of_here. Qed.

(** A session that starts with the marker stored. *)
Lemma opened_session :
  reachable Sample.base Sample.secret Sample.healthy
    (after (mount Sample.base Sample.healthy) Sample.fresh tt).
Proof. apply reachable_mount. Qed.

(** A session that starts without it. *)
Lemma closed_session :
  reachable Sample.base Sample.secret Sample.healthy
    (after (mount Sample.base Sample.healthy) Sample.logged_out tt).
Proof. apply reachable_mount. Qed.

(** The opened session after a file was picked. *)
Lemma picked_session :
  reachable Sample.base Sample.secret Sample.healthy
    (dispatch Sample.base Sample.secret Sample.healthy (FileChange (Some Sample.photo))
       (after (mount Sample.base Sample.healthy) Sample.fresh tt)).2.
Proof.
  apply reachable_event; [apply opened_session|].
  exists (FileInput FileChange). split; [|by exists (Some Sample.photo)].
  repeat first [apply list_elem_of_here | apply list_elem_of_further].
Qed.

Lemma session_gate_witness :
  Machine.transcript (after (mount Sample.base Sample.healthy) Sample.logged_out tt) = []
  /\ State.products
       (Machine.app (after (mount Sample.base Sample.healthy) Sample.logged_out tt))
     = Catalog.mk [] [].
Proof.
  destruct (session_gate Sample.base Sample.secret Sample.healthy _ closed_session)
    as (Hsent & Hproducts & _); [reflexivity|].
  split; [apply Hsent|apply Hproducts].
Defined.

Lemma session_marker_witness :
  State.authed (Machine.app (after (mount Sample.base Sample.healthy) Sample.fresh tt))
  = true
  <-> State.localStorage
        (Machine.app (after (mount Sample.base Sample.healthy) Sample.fresh tt))
      !! "admin_authed" = Some "true".
Proof.
  apply (session_marker Sample.base Sample.secret Sample.healthy _ opened_session).
Defined.

Lemma session_idle_witness :
  Button "Add Product" false Submit
  ∈ controls (Machine.app (after (mount Sample.base Sample.healthy) Sample.fresh tt)).
Proof.
  destruct (session_idle Sample.base Sample.secret Sample.healthy _ opened_session)
    as (_ & _ & Hbutton).
  apply Hbutton. reflexivity.
Defined.

Lemma session_file_excludes_url_witness :
  FormState.imageUrl
    (State.form
       (Machine.app
          (dispatch Sample.base Sample.secret Sample.healthy
             (FileChange (Some Sample.photo))
             (after (mount Sample.base Sample.healthy) Sample.fresh tt)).2))
  = "".
Proof.
  apply (session_file_excludes_url Sample.base Sample.secret Sample.healthy _
           picked_session).
  by exists Sample.photo.
Defined.

Lemma session_category_witness :
  FormState.category
    (State.form (Machine.app (after (mount Sample.base Sample.healthy) Sample.fresh tt)))
  <> "".
Proof.
  apply (session_category Sample.base Sample.secret Sample.healthy _ opened_session).
Defined.

Lemma session_snapshot_witness :
  State.products
    (Machine.app (after (mount Sample.base Sample.healthy) Sample.fresh tt))
  = default (Catalog.mk [] [])
      (last_catalog
         (Machine.transcript (after (mount Sample.base Sample.healthy) Sample.fresh tt))).
Proof.
  apply (session_snapshot Sample.base Sample.secret Sample.healthy _ opened_session).
Defined.

Lemma login_opens_witness :
  State.authed
    (Machine.app
       (after (dispatch Sample.base Sample.secret Sample.healthy Login)
          Sample.typing_secret tt))
  = true
  /\ calls
       (Machine.transcript
          (after (dispatch Sample.base Sample.secret Sample.healthy Login)
             Sample.typing_secret tt))
     = [FetchAllProducts].
Proof.
  destruct (login_opens Sample.base Sample.secret Sample.healthy Sample.typing_secret tt)
    as (Hauthed & _ & _ & Hcalls & _); [reflexivity..|].
  split; [apply Hauthed|apply Hcalls].
Defined.

Lemma login_refused_witness :
  Machine.transcript
    (after (dispatch Sample.base Sample.secret Sample.healthy Login)
       Sample.wrong_guess tt)
  = []
  /\ Machine.app
       (after (dispatch Sample.base Sample.secret Sample.healthy Login)
          Sample.wrong_guess tt)
     = setError (Some "Invalid password") Sample.wrong_guess.
Proof.
  apply (login_refused Sample.base Sample.secret Sample.healthy Sample.wrong_guess tt).
  discriminate.
Defined.

Lemma first_render_witness :
  calls (Machine.transcript (after (mount Sample.base Sample.healthy) Sample.fresh tt))
  = [FetchAllProducts]
  /\ Machine.transcript (after (mount Sample.base Sample.healthy) Sample.logged_out tt)
     = [].
Proof.
  destruct (first_render Sample.base Sample.healthy {["admin_authed" := "true"]} tt)
    as [Hauthed _].
  destruct (first_render Sample.base Sample.healthy ∅ tt) as [_ Hclosed].
  split; [apply Hauthed; reflexivity|apply Hclosed; discriminate].
Defined.

Lemma submit_call_order_witness :
  settled Sample.stored_create = true.
Proof.
  destruct (submit_call_order Sample.base Sample.healthy Sample.drafting_ring tt)
    as (_ & Hsettled & _).
  apply (Hsettled [] Sample.stored_create
           [Exchange.mk FetchAllProducts
              (Request.mk GET (Sample.base ++ "/products") NoBody)
              (Resolved (DCatalog Sample.catalog))]);
    [reflexivity|discriminate].
Defined.

Lemma failed_mutation_witness :
  State.form
    (Machine.app
       (after (handleSubmit Sample.base Sample.store_down) Sample.drafting_ring tt))
  = Sample.ring_form
  /\ State.error
       (Machine.app
          (after (handleSubmit Sample.base Sample.store_down) Sample.drafting_ring tt))
     = Some "HTTP 500".
Proof.
  destruct (failed_mutation_keeps_draft Sample.base Sample.store_down
              Sample.drafting_ring tt Sample.refused_create "HTTP 500")
    as (_ & Hform & _ & _ & _ & _ & Herror);
    [apply alone; reflexivity|reflexivity..|].
  split; [apply Hform|apply Herror].
Defined.

Lemma failed_delete_witness :
  State.error
    (Machine.app
       (after (handleDelete Sample.base Sample.store_down "p2" (Some "gifts"))
          Sample.editing_hamper tt))
  = Some "Failed to delete product."
  /\ State.editingProduct
       (Machine.app
          (after (handleDelete Sample.base Sample.store_down "p2" (Some "gifts"))
             Sample.editing_hamper tt))
     = Some Sample.hamper.
Proof.
  destruct (failed_delete Sample.base Sample.store_down Sample.editing_hamper tt
              "p2" (Some "gifts") "HTTP 500") as [Happ _]; [reflexivity|].
  rewrite Happ. split; reflexivity.
Defined.

Lemma refused_mutation_witness :
  State.error
    (Machine.app
       (after (handleSubmit Sample.base Sample.store_down) Sample.drafting_ring tt))
  = Some ("HTTP " ++ pretty 500%N).
Proof.
  destruct (refused_mutation_shows_status Sample.base Sample.store_down
              Sample.drafting_ring tt) as [Hstatus _];
    [vm_compute; discriminate|discriminate|reflexivity|left; discriminate|].
  apply (Hstatus 500%N (Rejected "Unexpected token")). reflexivity.
Defined.

Lemma upload_refusal_witness :
  State.error
    (Machine.app
       (after (handleSubmit Sample.base Sample.upload_down) Sample.with_photo tt))
  = Some "Image upload failed: disk full"
  /\ State.imageFile
       (Machine.app
          (after (handleSubmit Sample.base Sample.upload_down) Sample.with_photo tt))
     = Some Sample.photo.
Proof.
  destruct (upload_refusal_message Sample.base Sample.upload_down Sample.with_photo tt
              Sample.photo 500%N (Resolved (UploadBody.mk "" "disk full")))
    as (Herror & _ & _ & Hfile & _);
    [vm_compute; discriminate|discriminate|reflexivity..|].
  split; [apply Herror|apply Hfile].
Defined.

Lemma payload_shape_witness :
  Sample.ring_payload !! "title" = Some (Js.Str "Ring")
  /\ forall k, is_Some (Sample.ring_payload !! k) -> k <> "id".
Proof.
  destruct (payload_shape Sample.base Sample.healthy Sample.drafting_ring tt
              Sample.ring_payload (sent_alone _ _ ring_submit_sends))
    as (Hkeys & _ & Htitle).
  split; [apply Htitle|].
  intros k Hk%Hkeys ->.
  repeat (apply elem_of_cons in Hk as [Hk|Hk]; [discriminate Hk|]).
  by apply elem_of_nil in Hk.
Defined.

Lemma quantity_witness :
  Sample.stocked_payload !! "availableQuantity" = Some (Js.Num 3).
Proof.
  apply (quantity_sent_as_integer Sample.base Sample.healthy Sample.stocked_ring tt
           Sample.stocked_payload 3 "");
    [apply sent_alone, stocked_submit_sends|reflexivity..|vm_compute; discriminate].
Defined.

Lemma edit_then_submit_witness :
  exists x o rest,
    Machine.transcript
      (handleSubmit Sample.base Sample.healthy
         (after (handleEdit Sample.hamper) Sample.fresh tt)).2
    = x :: rest
    /\ Exchange.api x = UpdateProduct
    /\ Exchange.request x
       = Request.mk PUT (Sample.base ++ "/products/p2?category=gifts") (Json o)
    /\ o !! "imageUrl" = Some (Js.Str "https://img.example/legacy.png")
    /\ o !! "subcategory" = Some (Js.Str "Premium hampers")
    /\ o !! "availableQuantity" = None.
Proof.
  destruct (edit_then_submit Sample.base Sample.healthy Sample.fresh tt Sample.hamper)
    as (x & o & rest & Hsent & Hapi & Hrequest & _ & _ & _ & Himage & _ & _
        & Hsubcategory & _ & Hquantity & _);
    [vm_compute; discriminate|].
  exists x, o, rest. split_and!; [apply Hsent|apply Hapi|apply Hrequest|apply Himage
                                 |apply Hsubcategory|apply Hquantity].
Defined.

Lemma resubmit_witness :
  Machine.transcript
    (handleSubmit Sample.base Sample.healthy
       (after (handleSubmit Sample.base Sample.healthy) Sample.drafting_ring tt)).2
  = Machine.transcript
      (after (handleSubmit Sample.base Sample.healthy) Sample.drafting_ring tt)
  /\ State.error
       (Machine.app
          (handleSubmit Sample.base Sample.healthy
             (after (handleSubmit Sample.base Sample.healthy) Sample.drafting_ring tt)).2)
     = Some title_required.
Proof.
  destruct (resubmit_sends_nothing Sample.base Sample.healthy Sample.drafting_ring tt
              Sample.stored_create) as (Hsent & Herror & _);
    [apply alone; reflexivity|reflexivity|].
  split; [apply Hsent|apply Herror].
Defined.

Lemma listing_offers_delete :
  offered Sample.listing (Delete "p2" (Some "gifts")).
Proof.
  exists (Button "Delete" false (Delete "p2" (Some "gifts"))). split; [|done].
  repeat first [apply list_elem_of_here | apply list_elem_of_further].
Qed.

Lemma listing_offers_edit : offered Sample.listing (Edit Sample.hamper).
Proof.
  exists (Button "Edit" false (Edit Sample.hamper)). split; [|done].
  repeat first [apply list_elem_of_here | apply list_elem_of_further].
Qed.

Lemma delete_addresses_witness :
  exists p x rest,
    p ∈ catalog_rows (State.products Sample.listing)
    /\ Machine.transcript
         (after (dispatch Sample.base Sample.secret Sample.healthy
                   (Delete "p2" (Some "gifts"))) Sample.listing tt)
       = x :: rest
    /\ Exchange.api x = DeleteProduct.
Proof.
  destruct (delete_addresses_listed_product Sample.base Sample.secret Sample.healthy
              Sample.listing tt "p2" (Some "gifts") listing_offers_delete)
    as (p & x & rest & Hp & Hsent & Hapi & _).
  exists p, x, rest. split_and!; [apply Hp|apply Hsent|apply Hapi].
Defined.

Lemma edit_opens_witness :
  State.editingProduct
    (Machine.app
       (after (dispatch Sample.base Sample.secret Sample.healthy (Edit Sample.hamper))
          Sample.listing tt))
  = Some Sample.hamper
  /\ offered
       (Machine.app
          (after (dispatch Sample.base Sample.secret Sample.healthy (Edit Sample.hamper))
             Sample.listing tt))
       CancelEdit.
Proof.
  destruct (edit_opens_update_mode Sample.base Sample.secret Sample.healthy
              Sample.listing tt Sample.hamper listing_offers_edit)
    as (Hediting & Hcancel & _).
  split; [apply Hediting|apply Hcancel].
Defined.
